(** * Terminal-Executor: command execution and safety gate

    A shallow embedding of the backend of the Terminal-Executor service:
    [backend/command_executor.py], [backend/gemini_service.py] and
    [backend/app.py].

    Modelling conventions.
    - Text is [str], Python's type of the same name: a sequence of
      Unicode code points.  What Python's Unicode database says about a
      code point (white space, word character, letter case as far as
      [re.IGNORECASE] needs it for patterns written in ASCII) is written
      out below, for every code point.
    - Integers are [Z].
    - Python exceptions are values of [exn]; code that may raise returns
      an [outcome].  A [try ... except Exception] catches every class but
      [BaseExceptionOnly] (KeyboardInterrupt, SystemExit and the like).
    - What the program obtains from the outside (the finished child
      process, the HTTP reply of the language-model API, the request body)
      is an argument of the function that consumes it. *)

From Stdlib Require Import List ZArith NArith Bool Lia Arith.
From Stdlib.Strings Require Import Byte.
From Stdlib Require Ascii String DecimalString DecimalPos DecimalZ.
Import ListNotations.

Set Implicit Arguments.
Set Warnings "-register-all".

(** ** Text *)

(** A character is a Unicode code point. *)
Definition char : Set := N.
Bind Scope N_scope with char.

Inductive str : Set :=
| EmptyString
| String (c : char) (s : str).

Declare Scope str_scope.
Delimit Scope str_scope with str.
Bind Scope str_scope with str.

Module Str.

(** Literals are written in ASCII: a byte is its own code point. *)
Fixpoint of_bytes (l : list byte) : option str :=
  match l with
  | [] => Some EmptyString
  | b :: l' =>
      if (Byte.to_N b <? 128)%N
      then option_map (String (Byte.to_N b)) (of_bytes l')
      else None
  end.

Fixpoint to_bytes (s : str) : option (list byte) :=
  match s with
  | EmptyString => Some []
  | String c t =>
      match Byte.of_N c, to_bytes t with
      | Some b, Some l => if (c <? 128)%N then Some (b :: l) else None
      | _, _ => None
      end
  end.

Fixpoint append (s1 s2 : str) : str :=
  match s1 with
  | EmptyString => s2
  | String c t => String c (append t s2)
  end.

Fixpoint length (s : str) : nat :=
  match s with
  | EmptyString => O
  | String _ t => S (length t)
  end.

Fixpoint eqb (s1 s2 : str) : bool :=
  match s1, s2 with
  | EmptyString, EmptyString => true
  | String c1 t1, String c2 t2 => N.eqb c1 c2 && eqb t1 t2
  | _, _ => false
  end.

(** [s2.startswith(s1)] *)
Fixpoint prefix (s1 s2 : str) : bool :=
  match s1, s2 with
  | EmptyString, _ => true
  | String c1 t1, String c2 t2 => N.eqb c1 c2 && prefix t1 t2
  | String _ _, EmptyString => false
  end.

(** The text of a string of the Standard Library, character by
    character. *)
Fixpoint of_string (s : String.string) : str :=
  match s with
  | String.EmptyString => EmptyString
  | String.String a t => String (Ascii.N_of_ascii a) (of_string t)
  end.

End Str.

String Notation str Str.of_bytes Str.to_bytes : str_scope.
Infix "++" := Str.append (right associativity, at level 60) : str_scope.

Local Open Scope str_scope.
Local Open Scope Z_scope.

(** ** Python primitives *)

Module Py.

(** The exception classes the program's [except] clauses tell apart. *)
Inductive exc_class : Type :=
| TimeoutExpired      (* subprocess.TimeoutExpired *)
| RequestsTimeout     (* requests.exceptions.Timeout *)
| RequestException    (* requests.exceptions.RequestException, Timeout apart *)
| OtherException      (* any other subclass of Exception *)
| BaseExceptionOnly.  (* a BaseException that is not an Exception *)

(** An exception value: its class and [str(e)]. *)
Record exn : Type := mkExn { exn_class : exc_class; exn_str : str }.

Inductive outcome (A : Type) : Type :=
| Ret (a : A)
| Raise (e : exn).
Arguments Raise {A} e.

Definition bind {A B} (m : outcome A) (k : A -> outcome B) : outcome B :=
  match m with
  | Ret a => k a
  | Raise e => Raise e
  end.

(** [isinstance(e, Exception)] *)
Definition is_Exception (c : exc_class) : bool :=
  match c with
  | BaseExceptionOnly => false
  | _ => true
  end.

(** Truth value of a [str]: non-empty. *)
Definition truthy (s : str) : bool :=
  match s with
  | EmptyString => false
  | String _ _ => true
  end.

(** [str(n)] for an [int]: decimal digits, a leading minus sign when
    negative. *)
Definition str_of_int (n : Z) : str :=
  Str.of_string (DecimalString.NilZero.string_of_int (Z.to_int n)).

(** [lo <= c <= hi] *)
Definition in_range (lo hi c : char) : bool := ((lo <=? c) && (c <=? hi))%N.

(** Is [c] in one of the ranges of a table? *)
Definition in_table (table : list (char * char)) (c : char) : bool :=
  existsb (fun r => in_range (fst r) (snd r) c) table.

(** Equality of two characters. *)
Definition eqc (a b : char) : bool := (a =? b)%N.

Definition newline : char := 10%N.

(** The characters of which [str.isspace] is true, and which
    [str.strip] removes: TAB to CR, FS to US and the space, NEL, the
    no-break space, the Ogham space mark, the spaces U+2000 to U+200A,
    the line and the paragraph separator, the narrow no-break space, the
    medium mathematical space and the ideographic space. *)
Definition space_ranges : list (char * char) :=
  [(9, 13); (28, 32); (133, 133); (160, 160); (5760, 5760); (8192, 8202);
   (8232, 8233); (8239, 8239); (8287, 8287); (12288, 12288)]%N.

Definition is_space (c : char) : bool := in_table space_ranges c.

Fixpoint lstrip (s : str) : str :=
  match s with
  | EmptyString => EmptyString
  | String c t => if is_space c then lstrip t else s
  end.

(** Remove trailing white space: a character is kept when it is not
    white space or when something is kept after it. *)
Fixpoint rstrip (s : str) : str :=
  match s with
  | EmptyString => EmptyString
  | String c t =>
      match rstrip t with
      | EmptyString => if is_space c then EmptyString else String c EmptyString
      | t' => String c t'
      end
  end.

(** [s.strip()] *)
Definition strip (s : str) : str := rstrip (lstrip s).

(** [s.split('\n')[0]]: the text before the first line feed. *)
Fixpoint first_line (s : str) : str :=
  match s with
  | EmptyString => EmptyString
  | String c t => if eqc c newline then EmptyString else String c (first_line t)
  end.

(** Values decoded from JSON, as Python objects.  Of a float the program
    observes the truth value only.  A [JDict] lists the entries of a
    [dict]; a key is looked up at its first entry. *)
Inductive json : Type :=
| JNull
| JBool (b : bool)
| JInt (n : Z)
| JFloat (nonzero : bool)
| JStr (s : str)
| JList (l : list json)
| JDict (d : list (str * json)).

(** The errors the interpreter raises on these objects.  Each is an
    [Exception]; the wording of [str(e)] is the interpreter's. *)
Inductive builtin_error : Type :=
| KeyError (v : json) (k : json)          (* v[k], k absent *)
| IndexError (v : json)                   (* v[0], v empty *)
| NotSubscriptable (v : json) (k : json)  (* TypeError at v[k] *)
| NotIterable (v : json)                  (* TypeError at k in v *)
| NotText (v : json)                      (* TypeError: a str was expected *)
| NoAttribute (v : json) (name : str). (* AttributeError at v.name *)

(** [bool(v)] *)
Definition json_truthy (v : json) : bool :=
  match v with
  | JNull => false
  | JBool b => b
  | JInt n => negb (n =? 0)
  | JFloat nonzero => nonzero
  | JStr s => truthy s
  | JList l => match l with [] => false | _ :: _ => true end
  | JDict d => match d with [] => false | _ :: _ => true end
  end.

Fixpoint lookup (k : str) (d : list (str * json)) : option json :=
  match d with
  | [] => None
  | (k', v) :: d' => if Str.eqb k' k then Some v else lookup k d'
  end.

(** [k in s] for two strings. *)
Fixpoint is_substring (k s : str) : bool :=
  Str.prefix k s
  || match s with
     | EmptyString => false
     | String _ t => is_substring k t
     end.

Section Interpreter.
Variable message : builtin_error -> str.

Definition throw {A} (err : builtin_error) : outcome A :=
  Raise {| exn_class := OtherException; exn_str := message err |}.

(** [k in v] for a str [k] *)
Definition contains (k : str) (v : json) : outcome bool :=
  match v with
  | JDict d => Ret (match lookup k d with Some _ => true | None => false end)
  | JList l =>
      Ret (existsb (fun x => match x with
                             | JStr s => Str.eqb s k
                             | _ => false
                             end) l)
  | JStr s => Ret (is_substring k s)
  | _ => throw (NotIterable v)
  end.

(** [v[k]] for a str [k] *)
Definition getitem (v : json) (k : str) : outcome json :=
  match v with
  | JDict d =>
      match lookup k d with
      | Some x => Ret x
      | None => throw (KeyError v (JStr k))
      end
  | _ => throw (NotSubscriptable v (JStr k))
  end.

(** [v[0]] *)
Definition getitem0 (v : json) : outcome json :=
  match v with
  | JList (x :: _) => Ret x
  | JList [] => throw (IndexError v)
  | JStr (String c _) => Ret (JStr (String c EmptyString))
  | JStr EmptyString => throw (IndexError v)
  | JDict _ => throw (KeyError v (JInt 0))
  | _ => throw (NotSubscriptable v (JInt 0))
  end.

(** A value handed to a function of [re]: it must be a [str]. *)
Definition as_text (v : json) : outcome str :=
  match v with
  | JStr s => Ret s
  | _ => throw (NotText v)
  end.

(** [v.strip()] *)
Definition strip_method (v : json) : outcome str :=
  match v with
  | JStr s => Ret (strip s)
  | _ => throw (NoAttribute v "strip")
  end.
End Interpreter.

(** Truth value of an [Optional[str]]. *)
Definition opt_truthy (o : option str) : bool :=
  match o with
  | Some s => truthy s
  | None => false
  end.

End Py.

Notation "x <- m ;; k" := (Py.bind m (fun x => k))
(at level 61, m at next level, right associativity).

(** ** backend/command_executor.py *)

Module CommandExecutor.
Import Py.

(** What the body of the [try] block obtained from [subprocess.run]
    with [capture_output=True, text=True]. *)
Record CompletedProcess : Type := mkCompleted {
  returncode : Z;
  stdout : str;
  stderr : str
}.

(** The dictionary [execute_command] returns; its five keys are fixed. *)
Record response_data : Type := mkResponse {
  command : str;
  return_code : Z;
  output : str;
  error : str;
  success : bool
}.

Record t : Type := mkExecutor { timeout : Z }.

(** [__init__] *)
Definition init : t := {| timeout := 30 |}.

Definition failed_message (rc : Z) : str :=
  "Command failed with return code " ++ str_of_int rc.

(** [execute_command(self, command)]; [run] is the outcome of the
    [try] body up to and including [subprocess.run]. *)
Definition execute_command (self : t) (cmd : str)
           (run : outcome CompletedProcess) : outcome response_data :=
  match run with
  | Ret result =>
      let response_data :=
        {| command := cmd;
           return_code := returncode result;
           output := if truthy (stdout result) then stdout result else EmptyString;
           error := if truthy (stderr result) then stderr result else EmptyString;
           success := returncode result =? 0 |} in
      if negb (returncode result =? 0) then
        if truthy (stderr result) then
          Ret {| command := command response_data;
                 return_code := return_code response_data;
                 output := stderr result;
                 error := failed_message (returncode result);
                 success := success response_data |}
        else
          Ret {| command := command response_data;
                 return_code := return_code response_data;
                 output := failed_message (returncode result);
                 error := error response_data;
                 success := success response_data |}
      else Ret response_data
  | Raise e =>
      match exn_class e with
      | TimeoutExpired =>
          Ret {| command := cmd;
                 return_code := -1;
                 output := "Command timed out (" ++ str_of_int (timeout self)
                           ++ " seconds)";
                 error := "Timeout";
                 success := false |}
      | BaseExceptionOnly => Raise e
      | _ =>
          Ret {| command := cmd;
                 return_code := -1;
                 output := "Failed to execute command: " ++ exn_str e;
                 error := exn_str e;
                 success := false |}
      end
  end.

End CommandExecutor.

(** ** The fragment of Python's [re] the program uses

  Patterns are abstract syntax; matching is the backtracking search of
  [re]: every way a pattern can match at a position is listed in the
  order the engine tries them, so the head of the list is the match
  Python reports. *)

Module Re.
Import Py.

(** The small form of an ASCII capital letter; other characters are
    left as they are. *)
Definition lower (c : char) : char :=
  (if in_range 65 90 c then c + 32 else c)%N.

(** The capital form of an ASCII small letter. *)
Definition upper (c : char) : char :=
  (if in_range 97 122 c then c - 32 else c)%N.

(** What [re.IGNORECASE] compares in place of a character, where the
    pattern is written in ASCII: a capital ASCII letter counts as its small
    form; the dotted capital I (U+0130) and the dotless small i (U+0131)
    count as [i], the long s (U+017F) as [s], the Kelvin sign (U+212A) as
    [k]. *)
Definition fold (c : char) : char :=
  (if in_range 65 90 c then c + 32
   else if eqc c 304 || eqc c 305 then 105
   else if eqc c 383 then 115
   else if eqc c 8490 then 107
   else c)%N.

(** The characters above ASCII of which [str.isalnum] is true (letters,
    digits and other numeric characters), as ranges of code points, from
    the Unicode database of CPython 3.11 (Unicode 14.0). *)
Definition alnum_ranges : list (char * char) :=
  [(170, 170); (178, 179); (181, 181); (185, 186); (188, 190); (192, 214);
   (216, 246); (248, 705); (710, 721); (736, 740); (748, 748); (750, 750);
   (880, 884); (886, 887); (890, 893); (895, 895); (902, 902); (904, 906);
   (908, 908); (910, 929); (931, 1013); (1015, 1153); (1162, 1327);
   (1329, 1366); (1369, 1369); (1376, 1416); (1488, 1514); (1519, 1522);
   (1568, 1610); (1632, 1641); (1646, 1647); (1649, 1747); (1749, 1749);
   (1765, 1766); (1774, 1788); (1791, 1791); (1808, 1808); (1810, 1839);
   (1869, 1957); (1969, 1969); (1984, 2026); (2036, 2037); (2042, 2042);
   (2048, 2069); (2074, 2074); (2084, 2084); (2088, 2088); (2112, 2136);
   (2144, 2154); (2160, 2183); (2185, 2190); (2208, 2249); (2308, 2361);
   (2365, 2365); (2384, 2384); (2392, 2401); (2406, 2415); (2417, 2432);
   (2437, 2444); (2447, 2448); (2451, 2472); (2474, 2480); (2482, 2482);
   (2486, 2489); (2493, 2493); (2510, 2510); (2524, 2525); (2527, 2529);
   (2534, 2545); (2548, 2553); (2556, 2556); (2565, 2570); (2575, 2576);
   (2579, 2600); (2602, 2608); (2610, 2611); (2613, 2614); (2616, 2617);
   (2649, 2652); (2654, 2654); (2662, 2671); (2674, 2676); (2693, 2701);
   (2703, 2705); (2707, 2728); (2730, 2736); (2738, 2739); (2741, 2745);
   (2749, 2749); (2768, 2768); (2784, 2785); (2790, 2799); (2809, 2809);
   (2821, 2828); (2831, 2832); (2835, 2856); (2858, 2864); (2866, 2867);
   (2869, 2873); (2877, 2877); (2908, 2909); (2911, 2913); (2918, 2927);
   (2929, 2935); (2947, 2947); (2949, 2954); (2958, 2960); (2962, 2965);
   (2969, 2970); (2972, 2972); (2974, 2975); (2979, 2980); (2984, 2986);
   (2990, 3001); (3024, 3024); (3046, 3058); (3077, 3084); (3086, 3088);
   (3090, 3112); (3114, 3129); (3133, 3133); (3160, 3162); (3165, 3165);
   (3168, 3169); (3174, 3183); (3192, 3198); (3200, 3200); (3205, 3212);
   (3214, 3216); (3218, 3240); (3242, 3251); (3253, 3257); (3261, 3261);
   (3293, 3294); (3296, 3297); (3302, 3311); (3313, 3314); (3332, 3340);
   (3342, 3344); (3346, 3386); (3389, 3389); (3406, 3406); (3412, 3414);
   (3416, 3425); (3430, 3448); (3450, 3455); (3461, 3478); (3482, 3505);
   (3507, 3515); (3517, 3517); (3520, 3526); (3558, 3567); (3585, 3632);
   (3634, 3635); (3648, 3654); (3664, 3673); (3713, 3714); (3716, 3716);
   (3718, 3722); (3724, 3747); (3749, 3749); (3751, 3760); (3762, 3763);
   (3773, 3773); (3776, 3780); (3782, 3782); (3792, 3801); (3804, 3807);
   (3840, 3840); (3872, 3891); (3904, 3911); (3913, 3948); (3976, 3980);
   (4096, 4138); (4159, 4169); (4176, 4181); (4186, 4189); (4193, 4193);
   (4197, 4198); (4206, 4208); (4213, 4225); (4238, 4238); (4240, 4249);
   (4256, 4293); (4295, 4295); (4301, 4301); (4304, 4346); (4348, 4680);
   (4682, 4685); (4688, 4694); (4696, 4696); (4698, 4701); (4704, 4744);
   (4746, 4749); (4752, 4784); (4786, 4789); (4792, 4798); (4800, 4800);
   (4802, 4805); (4808, 4822); (4824, 4880); (4882, 4885); (4888, 4954);
   (4969, 4988); (4992, 5007); (5024, 5109); (5112, 5117); (5121, 5740);
   (5743, 5759); (5761, 5786); (5792, 5866); (5870, 5880); (5888, 5905);
   (5919, 5937); (5952, 5969); (5984, 5996); (5998, 6000); (6016, 6067);
   (6103, 6103); (6108, 6108); (6112, 6121); (6128, 6137); (6160, 6169);
   (6176, 6264); (6272, 6276); (6279, 6312); (6314, 6314); (6320, 6389);
   (6400, 6430); (6470, 6509); (6512, 6516); (6528, 6571); (6576, 6601);
   (6608, 6618); (6656, 6678); (6688, 6740); (6784, 6793); (6800, 6809);
   (6823, 6823); (6917, 6963); (6981, 6988); (6992, 7001); (7043, 7072);
   (7086, 7141); (7168, 7203); (7232, 7241); (7245, 7293); (7296, 7304);
   (7312, 7354); (7357, 7359); (7401, 7404); (7406, 7411); (7413, 7414);
   (7418, 7418); (7424, 7615); (7680, 7957); (7960, 7965); (7968, 8005);
   (8008, 8013); (8016, 8023); (8025, 8025); (8027, 8027); (8029, 8029);
   (8031, 8061); (8064, 8116); (8118, 8124); (8126, 8126); (8130, 8132);
   (8134, 8140); (8144, 8147); (8150, 8155); (8160, 8172); (8178, 8180);
   (8182, 8188); (8304, 8305); (8308, 8313); (8319, 8329); (8336, 8348);
   (8450, 8450); (8455, 8455); (8458, 8467); (8469, 8469); (8473, 8477);
   (8484, 8484); (8486, 8486); (8488, 8488); (8490, 8493); (8495, 8505);
   (8508, 8511); (8517, 8521); (8526, 8526); (8528, 8585); (9312, 9371);
   (9450, 9471); (10102, 10131); (11264, 11492); (11499, 11502);
   (11506, 11507); (11517, 11517); (11520, 11557); (11559, 11559);
   (11565, 11565); (11568, 11623); (11631, 11631); (11648, 11670);
   (11680, 11686); (11688, 11694); (11696, 11702); (11704, 11710);
   (11712, 11718); (11720, 11726); (11728, 11734); (11736, 11742);
   (11823, 11823); (12293, 12295); (12321, 12329); (12337, 12341);
   (12344, 12348); (12353, 12438); (12445, 12447); (12449, 12538);
   (12540, 12543); (12549, 12591); (12593, 12686); (12690, 12693);
   (12704, 12735); (12784, 12799); (12832, 12841); (12872, 12879);
   (12881, 12895); (12928, 12937); (12977, 12991); (13312, 19903);
   (19968, 42124); (42192, 42237); (42240, 42508); (42512, 42539);
   (42560, 42606); (42623, 42653); (42656, 42735); (42775, 42783);
   (42786, 42888); (42891, 42954); (42960, 42961); (42963, 42963);
   (42965, 42969); (42994, 43009); (43011, 43013); (43015, 43018);
   (43020, 43042); (43056, 43061); (43072, 43123); (43138, 43187);
   (43216, 43225); (43250, 43255); (43259, 43259); (43261, 43262);
   (43264, 43301); (43312, 43334); (43360, 43388); (43396, 43442);
   (43471, 43481); (43488, 43492); (43494, 43518); (43520, 43560);
   (43584, 43586); (43588, 43595); (43600, 43609); (43616, 43638);
   (43642, 43642); (43646, 43695); (43697, 43697); (43701, 43702);
   (43705, 43709); (43712, 43712); (43714, 43714); (43739, 43741);
   (43744, 43754); (43762, 43764); (43777, 43782); (43785, 43790);
   (43793, 43798); (43808, 43814); (43816, 43822); (43824, 43866);
   (43868, 43881); (43888, 44002); (44016, 44025); (44032, 55203);
   (55216, 55238); (55243, 55291); (63744, 64109); (64112, 64217);
   (64256, 64262); (64275, 64279); (64285, 64285); (64287, 64296);
   (64298, 64310); (64312, 64316); (64318, 64318); (64320, 64321);
   (64323, 64324); (64326, 64433); (64467, 64829); (64848, 64911);
   (64914, 64967); (65008, 65019); (65136, 65140); (65142, 65276);
   (65296, 65305); (65313, 65338); (65345, 65370); (65382, 65470);
   (65474, 65479); (65482, 65487); (65490, 65495); (65498, 65500);
   (65536, 65547); (65549, 65574); (65576, 65594); (65596, 65597);
   (65599, 65613); (65616, 65629); (65664, 65786); (65799, 65843);
   (65856, 65912); (65930, 65931); (66176, 66204); (66208, 66256);
   (66273, 66299); (66304, 66339); (66349, 66378); (66384, 66421);
   (66432, 66461); (66464, 66499); (66504, 66511); (66513, 66517);
   (66560, 66717); (66720, 66729); (66736, 66771); (66776, 66811);
   (66816, 66855); (66864, 66915); (66928, 66938); (66940, 66954);
   (66956, 66962); (66964, 66965); (66967, 66977); (66979, 66993);
   (66995, 67001); (67003, 67004); (67072, 67382); (67392, 67413);
   (67424, 67431); (67456, 67461); (67463, 67504); (67506, 67514);
   (67584, 67589); (67592, 67592); (67594, 67637); (67639, 67640);
   (67644, 67644); (67647, 67669); (67672, 67702); (67705, 67742);
   (67751, 67759); (67808, 67826); (67828, 67829); (67835, 67867);
   (67872, 67897); (67968, 68023); (68028, 68047); (68050, 68096);
   (68112, 68115); (68117, 68119); (68121, 68149); (68160, 68168);
   (68192, 68222); (68224, 68255); (68288, 68295); (68297, 68324);
   (68331, 68335); (68352, 68405); (68416, 68437); (68440, 68466);
   (68472, 68497); (68521, 68527); (68608, 68680); (68736, 68786);
   (68800, 68850); (68858, 68899); (68912, 68921); (69216, 69246);
   (69248, 69289); (69296, 69297); (69376, 69415); (69424, 69445);
   (69457, 69460); (69488, 69505); (69552, 69579); (69600, 69622);
   (69635, 69687); (69714, 69743); (69745, 69746); (69749, 69749);
   (69763, 69807); (69840, 69864); (69872, 69881); (69891, 69926);
   (69942, 69951); (69956, 69956); (69959, 69959); (69968, 70002);
   (70006, 70006); (70019, 70066); (70081, 70084); (70096, 70106);
   (70108, 70108); (70113, 70132); (70144, 70161); (70163, 70187);
   (70272, 70278); (70280, 70280); (70282, 70285); (70287, 70301);
   (70303, 70312); (70320, 70366); (70384, 70393); (70405, 70412);
   (70415, 70416); (70419, 70440); (70442, 70448); (70450, 70451);
   (70453, 70457); (70461, 70461); (70480, 70480); (70493, 70497);
   (70656, 70708); (70727, 70730); (70736, 70745); (70751, 70753);
   (70784, 70831); (70852, 70853); (70855, 70855); (70864, 70873);
   (71040, 71086); (71128, 71131); (71168, 71215); (71236, 71236);
   (71248, 71257); (71296, 71338); (71352, 71352); (71360, 71369);
   (71424, 71450); (71472, 71483); (71488, 71494); (71680, 71723);
   (71840, 71922); (71935, 71942); (71945, 71945); (71948, 71955);
   (71957, 71958); (71960, 71983); (71999, 71999); (72001, 72001);
   (72016, 72025); (72096, 72103); (72106, 72144); (72161, 72161);
   (72163, 72163); (72192, 72192); (72203, 72242); (72250, 72250);
   (72272, 72272); (72284, 72329); (72349, 72349); (72368, 72440);
   (72704, 72712); (72714, 72750); (72768, 72768); (72784, 72812);
   (72818, 72847); (72960, 72966); (72968, 72969); (72971, 73008);
   (73030, 73030); (73040, 73049); (73056, 73061); (73063, 73064);
   (73066, 73097); (73112, 73112); (73120, 73129); (73440, 73458);
   (73648, 73648); (73664, 73684); (73728, 74649); (74752, 74862);
   (74880, 75075); (77712, 77808); (77824, 78894); (82944, 83526);
   (92160, 92728); (92736, 92766); (92768, 92777); (92784, 92862);
   (92864, 92873); (92880, 92909); (92928, 92975); (92992, 92995);
   (93008, 93017); (93019, 93025); (93027, 93047); (93053, 93071);
   (93760, 93846); (93952, 94026); (94032, 94032); (94099, 94111);
   (94176, 94177); (94179, 94179); (94208, 100343); (100352, 101589);
   (101632, 101640); (110576, 110579); (110581, 110587); (110589, 110590);
   (110592, 110882); (110928, 110930); (110948, 110951); (110960, 111355);
   (113664, 113770); (113776, 113788); (113792, 113800); (113808, 113817);
   (119520, 119539); (119648, 119672); (119808, 119892); (119894, 119964);
   (119966, 119967); (119970, 119970); (119973, 119974); (119977, 119980);
   (119982, 119993); (119995, 119995); (119997, 120003); (120005, 120069);
   (120071, 120074); (120077, 120084); (120086, 120092); (120094, 120121);
   (120123, 120126); (120128, 120132); (120134, 120134); (120138, 120144);
   (120146, 120485); (120488, 120512); (120514, 120538); (120540, 120570);
   (120572, 120596); (120598, 120628); (120630, 120654); (120656, 120686);
   (120688, 120712); (120714, 120744); (120746, 120770); (120772, 120779);
   (120782, 120831); (122624, 122654); (123136, 123180); (123191, 123197);
   (123200, 123209); (123214, 123214); (123536, 123565); (123584, 123627);
   (123632, 123641); (124896, 124902); (124904, 124907); (124909, 124910);
   (124912, 124926); (124928, 125124); (125127, 125135); (125184, 125251);
   (125259, 125259); (125264, 125273); (126065, 126123); (126125, 126127);
   (126129, 126132); (126209, 126253); (126255, 126269); (126464, 126467);
   (126469, 126495); (126497, 126498); (126500, 126500); (126503, 126503);
   (126505, 126514); (126516, 126519); (126521, 126521); (126523, 126523);
   (126530, 126530); (126535, 126535); (126537, 126537); (126539, 126539);
   (126541, 126543); (126545, 126546); (126548, 126548); (126551, 126551);
   (126553, 126553); (126555, 126555); (126557, 126557); (126559, 126559);
   (126561, 126562); (126564, 126564); (126567, 126570); (126572, 126578);
   (126580, 126583); (126585, 126588); (126590, 126590); (126592, 126601);
   (126603, 126619); (126625, 126627); (126629, 126633); (126635, 126651);
   (127232, 127244); (130032, 130041); (131072, 173791); (173824, 177976);
   (177984, 178205); (178208, 183969); (183984, 191456); (194560, 195101);
   (196608, 201546)]%N.

(** [\w] on ASCII: letters, digits and the underscore. *)
Definition ascii_word (c : char) : bool :=
  (in_range 48 57 c || in_range 65 90 c || in_range 97 122 c || eqc c 95)%N.

(** [\w]: an alphanumeric character or the underscore. *)
Definition is_word (c : char) : bool :=
  if (c <? 128)%N then ascii_word c else in_table alnum_ranges c.

(** A member of a bracketed set. *)
Inductive set_item : Type :=
| SChar (c : char)
| SRange (lo hi : char).

Definition item_has (c : char) (i : set_item) : bool :=
  match i with
  | SChar d => eqc c d
  | SRange lo hi => in_range lo hi c
  end.

(** Membership with IGNORECASE: the character or its other case is a
    member. *)
Definition item_has_ic (x : char) (i : set_item) : bool :=
  match i with
  | SChar d => eqc (fold x) (fold d)
  | SRange lo hi => in_range lo hi (fold x) || in_range lo hi (upper (fold x))
  end.

(** Patterns that consume one character. *)
Inductive cclass : Type :=
| Lit (c : char)             (* a literal character *)
| Dot                         (* .  : anything but a line feed *)
| Space                       (* \s *)
| InSet (items : list set_item).  (* [...] *)

(** Patterns that consume nothing. *)
Inductive assertion : Type :=
| WordB     (* \b *)
| Bol       (* ^ , without MULTILINE *)
| Eol.      (* $ , without MULTILINE *)

Inductive regex : Type :=
| Eps
| Chr (k : cclass)
| Assert (a : assertion)
| Seq (r1 r2 : regex)
| Star (greedy : bool) (r : regex).

(** [r+] *)
Definition Plus (r : regex) : regex := Seq r (Star true r).

(** The literal characters of [s], in sequence. *)
Fixpoint lits (s : str) : regex :=
  match s with
  | EmptyString => Eps
  | String c t => Seq (Chr (Lit c)) (lits t)
  end.

Fixpoint cat (rs : list regex) : regex :=
  match rs with
  | [] => Eps
  | r :: rs' => Seq r (cat rs')
  end.

(** Does class [k] accept character [x]; [ic] is the IGNORECASE flag. *)
Definition cmatch (ic : bool) (k : cclass) (x : char) : bool :=
  match k with
  | Lit c => if ic then eqc (fold x) (fold c) else eqc x c
  | Dot => negb (eqc x newline)
  | Space => is_space x
  | InSet items =>
      if ic then existsb (item_has_ic x) items
      else existsb (item_has x) items
  end.

(** A position in the subject: the character before it ([None] at the
    start of the text) and the text from it on. *)
Definition pos : Type := (option char * str)%type.

Definition word_before (p : option char) : bool :=
  match p with
  | Some c => is_word c
  | None => false
  end.

Definition word_after (s : str) : bool :=
  match s with
  | String c _ => is_word c
  | EmptyString => false
  end.

Definition holds (a : assertion) (p : option char) (s : str) : bool :=
  match a with
  | WordB => negb (Bool.eqb (word_before p) (word_after s))
  | Bol => match p with None => true | Some _ => false end
  | Eol => match s with
           | EmptyString => true
           | String c EmptyString => eqc c newline
           | _ => false
           end
  end.

(** The iterations of a starred pattern whose body matches as [body]
    says.  An iteration that consumes nothing is not repeated. *)
Fixpoint star_loop (body : option char -> str -> list pos) (greedy : bool)
         (fuel : nat) (p : option char) (s : str) : list pos :=
  match fuel with
  | O => [(p, s)]
  | S fuel' =>
      let more :=
        flat_map (fun q : pos =>
                    if (Str.length (snd q) <? Str.length s)%nat
                    then star_loop body greedy fuel' (fst q) (snd q)
                    else [])
                 (body p s) in
      if greedy then more ++ [(p, s)] else (p, s) :: more
  end.

(** The positions at which a match of [r] started at [(p, s)] can end,
    in the engine's order of preference. *)
Fixpoint rmatch (ic : bool) (r : regex) (p : option char) (s : str)
  : list pos :=
  match r with
  | Eps => [(p, s)]
  | Chr k =>
      match s with
      | String c t => if cmatch ic k c then [(Some c, t)] else []
      | EmptyString => []
      end
  | Assert a => if holds a p s then [(p, s)] else []
  | Seq r1 r2 =>
      flat_map (fun q : pos => rmatch ic r2 (fst q) (snd q)) (rmatch ic r1 p s)
  | Star g r1 => star_loop (rmatch ic r1) g (Str.length s) p s
  end.

(** Scan for the first position at which [r] matches. *)
Fixpoint search_from (ic : bool) (r : regex) (p : option char) (s : str)
  : bool :=
  match rmatch ic r p s with
  | _ :: _ => true
  | [] =>
      match s with
      | EmptyString => false
      | String c t => search_from ic r (Some c) t
      end
  end.

(** [bool(re.search(r, s, flags))] *)
Definition search (ic : bool) (r : regex) (s : str) : bool :=
  search_from ic r None s.

Definition is_empty_match (s : str) (q : pos) : bool :=
  (Str.length s <=? Str.length (snd q))%nat.

(** Replace the successive matches of [r] by [repl].  After an empty
    match the next match at the same position must consume something
    ([must_advance]); where nothing matches, one character is copied. *)
Fixpoint sub_from (ic : bool) (r : regex) (repl : str) (fuel : nat)
         (must_advance : bool) (p : option char) (s : str) : str :=
  match fuel with
  | O => s
  | S fuel' =>
      let found := rmatch ic r p s in
      let found := if must_advance
                   then filter (fun q => negb (is_empty_match s q)) found
                   else found in
      match found with
      | q :: _ =>
          if is_empty_match s q
          then repl ++ sub_from ic r repl fuel' true p s
          else repl ++ sub_from ic r repl fuel' false (fst q) (snd q)
      | [] =>
          match s with
          | EmptyString => EmptyString
          | String c t => String c (sub_from ic r repl fuel' false (Some c) t)
          end
      end
  end.

(** [re.sub(r, repl, s)] with a literal replacement. *)
Definition sub (ic : bool) (r : regex) (repl : str) (s : str) : str :=
  sub_from ic r repl (2 * Str.length s + 2) false None s.

End Re.

Arguments Py.in_range : simpl never.
Arguments Py.eqc : simpl never.
Arguments Py.is_space : simpl never.
Arguments Re.lower : simpl never.
Arguments Re.upper : simpl never.
Arguments Re.fold : simpl never.
Arguments Re.is_word : simpl never.

(** ** backend/gemini_service.py *)

Module GeminiService.
Import Py.

Record t : Type := mkService {
  api_key : option str;
  url : str;
  headers : list (str * option str);
  is_configured : bool
}.

(** [__init__]; [key] is [os.getenv("GEMINI_API_KEY")]. *)
Definition init (key : option str) : t :=
  {| api_key := key;
     url := "https://generativelanguage.googleapis.com/v1beta/models/gemini-2.0-flash:generateContent";
     headers := [("Content-Type", Some "application/json");
                 ("X-goog-api-key", key)];
     is_configured := match key with Some _ => true | None => false end |}.

(** The reply of [requests.post]; [json] is what [response.json()]
    does when called. *)
Record Response : Type := mkReply {
  status_code : Z;
  text : str;
  json : outcome Py.json
}.

Definition dq : str := String 34%N EmptyString.

Definition _build_prompt (text : str) : str :=
  ("
Convert the following natural language request into a single, appropriate terminal/shell command. 
Only respond with the command itself, no explanations or additional text.

Examples:
- " ++ dq ++ "show me all files in current directory" ++ dq ++ " -> " ++ dq ++ "ls -la" ++ dq ++ "
- " ++ dq ++ "what's my current location" ++ dq ++ " -> " ++ dq ++ "pwd" ++ dq ++ "
- " ++ dq ++ "create a new folder called test" ++ dq ++ " -> " ++ dq ++ "mkdir test" ++ dq ++ "
- " ++ dq ++ "show running processes" ++ dq ++ " -> " ++ dq ++ "ps aux" ++ dq ++ "
- " ++ dq ++ "check disk usage" ++ dq ++ " -> " ++ dq ++ "df -h" ++ dq ++ "
- " ++ dq ++ "find all python files" ++ dq ++ " -> " ++ dq ++ "find . -name " ++ dq ++ "*.py" ++ dq ++ dq ++ "
- " ++ dq ++ "show current date and time" ++ dq ++ " -> " ++ dq ++ "date" ++ dq ++ "
- " ++ dq ++ "show system information" ++ dq ++ " -> " ++ dq ++ "uname -a" ++ dq ++ "
- " ++ dq ++ "list all directories" ++ dq ++ " -> " ++ dq ++ "ls -d */" ++ dq ++ "
- " ++ dq ++ "show file contents of readme.txt" ++ dq ++ " -> " ++ dq ++ "cat readme.txt" ++ dq ++ "

Request: " ++ text ++ "

Command:")%str.

(** [^```.*?\n] *)
Definition fence_open : Re.regex :=
  Re.cat [Re.Assert Re.Bol; Re.lits "```"; Re.Star false (Re.Chr Re.Dot);
          Re.Chr (Re.Lit newline)].

(** [\n```$] *)
Definition fence_close : Re.regex :=
  Re.cat [Re.Chr (Re.Lit newline); Re.lits "```"; Re.Assert Re.Eol].

(** [_clean_command_response]; the second substitution is applied to
    [command_text], as in the source. *)
Definition _clean_command_response (command_text : str) : str :=
  let command := Re.sub false fence_open EmptyString command_text in
  let command := Re.sub false fence_close EmptyString command_text in
  let command := strip command in
  let command := strip (first_line command) in
  command.

Definition dangerous_patterns : list Re.regex :=
  [ (* \brm\s+-rf\s+/ *)
    Re.cat [Re.Assert Re.WordB; Re.lits "rm"; Re.Plus (Re.Chr Re.Space);
            Re.lits "-rf"; Re.Plus (Re.Chr Re.Space); Re.lits "/"];
    (* \bformat\b *)
    Re.cat [Re.Assert Re.WordB; Re.lits "format"; Re.Assert Re.WordB];
    (* \bdel\s+/[sq] *)
    Re.cat [Re.Assert Re.WordB; Re.lits "del"; Re.Plus (Re.Chr Re.Space);
            Re.lits "/";
            Re.Chr (Re.InSet [Re.SChar 115%N; Re.SChar 113%N])];
    (* >\s*/dev/sd[a-z] *)
    Re.cat [Re.lits ">"; Re.Star true (Re.Chr Re.Space); Re.lits "/dev/sd";
            Re.Chr (Re.InSet [Re.SRange 97%N 122%N])];
    (* \bdd\s+if=.*of=/dev/ *)
    Re.cat [Re.Assert Re.WordB; Re.lits "dd"; Re.Plus (Re.Chr Re.Space);
            Re.lits "if="; Re.Star true (Re.Chr Re.Dot); Re.lits "of=/dev/"];
    (* \bshutdown\b *)
    Re.cat [Re.Assert Re.WordB; Re.lits "shutdown"; Re.Assert Re.WordB];
    (* \breboot\b *)
    Re.cat [Re.Assert Re.WordB; Re.lits "reboot"; Re.Assert Re.WordB];
    (* \bhalt\b *)
    Re.cat [Re.Assert Re.WordB; Re.lits "halt"; Re.Assert Re.WordB] ].

(** [_is_dangerous_command]: the loop returns [True] at the first
    pattern that [re.search] finds with [re.IGNORECASE]. *)
Definition _is_dangerous_command (command : str) : bool :=
  existsb (fun pattern => Re.search true pattern command) dangerous_patterns.

Section Interpreter.
Variable message : builtin_error -> str.

(** ['candidates' not in result or not result['candidates']] *)
Definition no_candidates (result : Py.json) : outcome bool :=
  present <- contains message "candidates" result ;;
  if negb present then Ret true
  else c <- getitem message result "candidates" ;;
       Ret (negb (json_truthy c)).

(** [result['candidates'][0]['content']['parts'][0]['text']] *)
Definition command_text_of (result : Py.json) : outcome Py.json :=
  c <- getitem message result "candidates" ;;
  c0 <- getitem0 message c ;;
  content <- getitem message c0 "content" ;;
  parts <- getitem message content "parts" ;;
  p0 <- getitem0 message parts ;;
  getitem message p0 "text".

(** The body of the [try] block of
    [convert_natural_language_to_command]. *)
Definition convert_body (self : t) (query : str)
           (post : str -> list (str * option str) -> str
                   -> outcome Response)
  : outcome (option str * option str) :=
  let prompt := _build_prompt query in
  response <- post (url self) (headers self) prompt ;;
  if negb (status_code response =? 200) then
    Ret (None, Some ("Gemini API error: " ++ str_of_int (status_code response)
                     ++ " - " ++ text response))
  else
    result <- json response ;;
    none <- no_candidates result ;;
    if none then Ret (None, Some "No response from Gemini API")
    else
      command_text <- command_text_of result ;;
      command_text <- as_text message command_text ;;
      let command := _clean_command_response command_text in
      if _is_dangerous_command command then
        Ret (None, Some "Command rejected for safety reasons.")
      else Ret (Some command, None).

(** [convert_natural_language_to_command(self, text)], returning the
    pair [(command, error_message)]. *)
Definition convert_natural_language_to_command (self : t) (query : str)
           (post : str -> list (str * option str) -> str
                   -> outcome Response)
  : outcome (option str * option str) :=
  if negb (is_configured self) then
    Ret (None, Some "Gemini API is not configured. Please set GEMINI_API_KEY in environment variables.")
  else
    match convert_body self query post with
    | Ret r => Ret r
    | Raise e =>
        match exn_class e with
        | RequestsTimeout => Ret (None, Some "Gemini API request timed out")
        | RequestException => Ret (None, Some ("Network error: " ++ exn_str e))
        | BaseExceptionOnly => Raise e
        | _ => Ret (None, Some ("Error converting natural language: "
                                ++ exn_str e))
        end
    end.
End Interpreter.

End GeminiService.

(** ** backend/app.py: the route /natural-language *)

Module App.
Import Py.

Record http_response : Type := mkHttp {
  status : Z;
  body : list (str * Py.json)
}.

Section Interpreter.
Variable message : builtin_error -> str.
Variable gemini_service : GeminiService.t.
Variable command_executor : CommandExecutor.t.

(** From [request.get_json()] to the trimmed query: a 400 reply or
    the query. *)
Definition read_query (get_json : outcome Py.json)
  : outcome (http_response + str) :=
  data <- get_json ;;
  if negb (json_truthy data) then
    Ret (inl {| status := 400; body := [("error", JStr "No query provided")] |})
  else
    present <- contains message "query" data ;;
    if negb present then
      Ret (inl {| status := 400;
                  body := [("error", JStr "No query provided")] |})
    else
      q <- getitem message data "query" ;;
      query <- strip_method message q ;;
      if negb (truthy query) then
        Ret (inl {| status := 400; body := [("error", JStr "Empty query")] |})
      else Ret (inr query).

(** The body of the [try] block of [process_natural_language]: the
    reply, and the commands handed to the executor on the way. *)
Definition process_body (get_json : outcome Py.json)
           (post : str -> list (str * option str) -> str
                   -> outcome GeminiService.Response)
           (run : str -> outcome CommandExecutor.CompletedProcess)
  : outcome http_response * list str :=
  match read_query get_json with
  | Raise e => (Raise e, [])
  | Ret (inl reply) => (Ret reply, [])
  | Ret (inr query) =>
      match GeminiService.convert_natural_language_to_command
              message gemini_service query post with
      | Raise e => (Raise e, [])
      | Ret (converted_command, error) =>
          if opt_truthy error then
            (Ret {| status := 400;
                    body := [("error", match error with
                                       | Some e => JStr e
                                       | None => JNull
                                       end);
                             ("original_query", JStr query);
                             ("mode", JStr "natural_language")] |}, [])
          else if negb (opt_truthy converted_command) then
            (Ret {| status := 400;
                    body := [("error", JStr "Could not convert query to command");
                             ("original_query", JStr query);
                             ("mode", JStr "natural_language")] |}, [])
          else
            let cmd := match converted_command with
                       | Some c => c
                       | None => EmptyString
                       end in
            match CommandExecutor.execute_command command_executor cmd (run cmd)
            with
            | Raise e => (Raise e, [cmd])
            | Ret result =>
                (Ret {| status := 200;
                        body :=
                          [("original_query", JStr query);
                           ("converted_command", JStr cmd);
                           ("command", JStr (CommandExecutor.command result));
                           ("return_code", JInt (CommandExecutor.return_code result));
                           ("output", JStr (CommandExecutor.output result));
                           ("error", JStr (CommandExecutor.error result));
                           ("success", JBool (CommandExecutor.success result));
                           ("mode", JStr "natural_language")] |}, [cmd])
            end
      end
  end.

(** [process_natural_language()] *)
Definition process_natural_language (get_json : outcome Py.json)
           (post : str -> list (str * option str) -> str
                   -> outcome GeminiService.Response)
           (run : str -> outcome CommandExecutor.CompletedProcess)
  : outcome http_response * list str :=
  match process_body get_json post run with
  | (Ret reply, spawned) => (Ret reply, spawned)
  | (Raise e, spawned) =>
      if is_Exception (exn_class e) then
        (Ret {| status := 500;
                body := [("error", JStr ("Server error: " ++ exn_str e))] |},
         spawned)
      else (Raise e, spawned)
  end.

(** From [request.get_json()] to the trimmed command of the route
    /execute: a 400 reply or the command. *)
Definition read_cmd (get_json : outcome Py.json)
  : outcome (http_response + str) :=
  data <- get_json ;;
  if negb (json_truthy data) then
    Ret (inl {| status := 400; body := [("error", JStr "No command provided")] |})
  else
    present <- contains message "cmd" data ;;
    if negb present then
      Ret (inl {| status := 400;
                  body := [("error", JStr "No command provided")] |})
    else
      c <- getitem message data "cmd" ;;
      command <- strip_method message c ;;
      if negb (truthy command) then
        Ret (inl {| status := 400; body := [("error", JStr "Empty command")] |})
      else Ret (inr command).

(** The body of the [try] block of the route /execute: the reply, and
    the commands handed to the executor on the way. *)
Definition execute_body (get_json : outcome Py.json)
           (run : str -> outcome CommandExecutor.CompletedProcess)
  : outcome http_response * list str :=
  match read_cmd get_json with
  | Raise e => (Raise e, [])
  | Ret (inl reply) => (Ret reply, [])
  | Ret (inr command) =>
      match CommandExecutor.execute_command command_executor command (run command)
      with
      | Raise e => (Raise e, [command])
      | Ret result =>
          (Ret {| status := 200;
                  body :=
                    [("command", JStr (CommandExecutor.command result));
                     ("return_code", JInt (CommandExecutor.return_code result));
                     ("output", JStr (CommandExecutor.output result));
                     ("error", JStr (CommandExecutor.error result));
                     ("success", JBool (CommandExecutor.success result));
                     ("mode", JStr "manual")] |}, [command])
      end
  end.

(** [execute_command()], the handler of the route /execute *)
Definition execute_command (get_json : outcome Py.json)
           (run : str -> outcome CommandExecutor.CompletedProcess)
  : outcome http_response * list str :=
  match execute_body get_json run with
  | (Ret reply, spawned) => (Ret reply, spawned)
  | (Raise e, spawned) =>
      if is_Exception (exn_class e) then
        (Ret {| status := 500;
                body := [("error", JStr ("Server error: " ++ exn_str e))] |},
         spawned)
      else (Raise e, spawned)
  end.

(** [health_check()]; [python_version] is [sys.version] and
    [working_directory] is [os.getcwd()]. *)
Definition health_check (python_version working_directory : str)
  : http_response :=
  {| status := 200;
     body :=
       [("status", JStr "healthy");
        ("python_version", JStr python_version);
        ("working_directory", JStr working_directory);
        ("gemini_configured", JBool (GeminiService.is_configured gemini_service));
        ("services",
         JDict [("gemini",
                 JStr (if GeminiService.is_configured gemini_service
                       then "configured" else "not_configured"));
                ("command_executor", JStr "ready")])] |}.
End Interpreter.

End App.

(** ** Statements about positions and patterns *)

Module ReSpec.
Import Py Re.

(** [Matches ic r p s p' s']: pattern [r] matches from the position
    [(p, s)] to the position [(p', s')].  The relation says which
    matches exist; it knows nothing of the order of the search. *)
Inductive Matches (ic : bool)
  : regex -> option char -> str -> option char -> str -> Prop :=
| MEps p s : Matches ic Eps p s p s
| MChr k c p s : cmatch ic k c = true -> Matches ic (Chr k) p (String c s) (Some c) s
| MAssert a p s : holds a p s = true -> Matches ic (Assert a) p s p s
| MSeq r1 r2 p s p1 s1 p2 s2 :
    Matches ic r1 p s p1 s1 -> Matches ic r2 p1 s1 p2 s2 ->
    Matches ic (Seq r1 r2) p s p2 s2
| MStarStop g r p s : Matches ic (Star g r) p s p s
| MStarStep g r p s p1 s1 p2 s2 :
    Matches ic r p s p1 s1 -> Matches ic (Star g r) p1 s1 p2 s2 ->
    Matches ic (Star g r) p s p2 s2.

(** The character before the position reached after reading [pre]
    from a position whose previous character is [p]. *)
Fixpoint last_of (p : option char) (pre : str) : option char :=
  match pre with
  | EmptyString => p
  | String c t => last_of (Some c) t
  end.

(** The text [s] contains a match of [r]: it splits into what precedes
    the match and a rest that starts with it. *)
Definition Contains (ic : bool) (r : regex) (s : str) : Prop :=
  exists pre rest p' s',
    s = (pre ++ rest)%str /\ Matches ic r (last_of None pre) rest p' s'.



End ReSpec.

Module ExecSpec.
Import Py CommandExecutor.

(** The outcomes [execute_command] turns into a result: the child
    process completed, the timeout expired, or an [Exception] was
    raised on the way. *)
Definition handled (run : outcome CompletedProcess) : Prop :=
  match run with
  | Ret _ => True
  | Raise e => is_Exception (exn_class e) = true
  end.

(** Does the invocation leave text for the [error] field: it timed
    out, it completed with text on standard error, or it raised an
    exception with a description. *)
Definition leaves_error_text (run : outcome CompletedProcess) : Prop :=
  match run with
  | Ret result => stderr result <> EmptyString
  | Raise e =>
      match exn_class e with
      | TimeoutExpired => True
      | _ => exn_str e <> EmptyString
      end
  end.

End ExecSpec.

Module TranslateSpec.
Import Py.

(** The pair returned by the translator is a command with no error,
    or a non-empty error with no command. *)
Definition command_or_error (r : option str * option str) : Prop :=
  match r with
  | (Some _, None) => True
  | (None, Some e) => e <> EmptyString
  | _ => False
  end.

(** The same with the command required to be non-empty, as the
    specification words it. *)
Definition nonempty_command_or_error (r : option str * option str)
  : Prop :=
  match r with
  | (Some c, None) => c <> EmptyString
  | (None, Some _) => True
  | _ => False
  end.

(** A reply of the language-model API with status 200 whose JSON body
    carries [text] as the text of its first candidate. *)
Definition reply_with_text (text : str) : GeminiService.Response :=
  {| GeminiService.status_code := 200;
     GeminiService.text := EmptyString;
     GeminiService.json :=
       Ret (JDict [("candidates",
                    JList [JDict [("content",
                                   JDict [("parts",
                                           JList [JDict [("text", JStr text)]])])]])]) |}.

Fixpoint has_newline (s : str) : bool :=
  match s with
  | EmptyString => false
  | String c t => eqc c newline || has_newline t
  end.

End TranslateSpec.

Module GateSpec.
Import Py Re ReSpec TranslateSpec.







(** The pattern has no [^] and no [$]. *)
Fixpoint anchor_free (r : regex) : bool :=
  match r with
  | Eps => true
  | Chr _ => true
  | Assert WordB => true
  | Assert _ => false
  | Seq r1 r2 => anchor_free r1 && anchor_free r2
  | Star _ r1 => anchor_free r1
  end.

(** The text starts with white space: [strip] would shorten it. *)
Definition starts_with_space (s : str) : bool :=
  match s with
  | EmptyString => false
  | String c _ => is_space c
  end.

Fixpoint ends_with_space (s : str) : bool :=
  match s with
  | EmptyString => false
  | String c EmptyString => is_space c
  | String _ t => ends_with_space t
  end.

(** The value of a key in the body of a reply. *)
Definition field (k : str) (reply : App.http_response) : option json :=
  lookup k (App.body reply).

(** The error message [convert_natural_language_to_command] gives for an
    exception raised while it talks to the language-model API; the
    clauses are tried in the order of the source. *)
Definition translation_error (e : exn) : str :=
  match exn_class e with
  | RequestsTimeout => "Gemini API request timed out"
  | RequestException => "Network error: " ++ exn_str e
  | _ => "Error converting natural language: " ++ exn_str e
  end.

(** The reply 400 of the route /natural-language. *)
Definition refusal (reason query : str) : App.http_response :=
  {| App.status := 400;
     App.body := [("error", JStr reason);
                  ("original_query", JStr query);
                  ("mode", JStr "natural_language")] |}.

(** The reply 200 of a route for the result of an execution. *)
Definition executed (result : CommandExecutor.response_data)
  : list (str * json) :=
  [("command", JStr (CommandExecutor.command result));
   ("return_code", JInt (CommandExecutor.return_code result));
   ("output", JStr (CommandExecutor.output result));
   ("error", JStr (CommandExecutor.error result));
   ("success", JBool (CommandExecutor.success result))].

Definition not_configured_message : str :=
  "Gemini API is not configured. Please set GEMINI_API_KEY in environment variables.".

(** Inputs for examples: an interpreter that words every error alike, a
    process that ends at once with exit code 0, a request body with a
    query, an API that replies with a given text. *)
Definition plain_message : builtin_error -> str := fun _ => "error".

Definition quiet_run : str -> outcome CommandExecutor.CompletedProcess :=
  fun _ => Ret {| CommandExecutor.returncode := 0;
                  CommandExecutor.stdout := EmptyString;
                  CommandExecutor.stderr := EmptyString |}.

Definition query_body (query : str) : outcome json :=
  Ret (JDict [("query", JStr query)]).

Definition api_replies (reply : outcome GeminiService.Response)
  : str -> list (str * option str) -> str
    -> outcome GeminiService.Response :=
  fun _ _ _ => reply.

End GateSpec.

(** * Properties *)

Example str_of_int_0 : Py.str_of_int 0 = "0". Proof. reflexivity. Qed.
Example str_of_int_m1 : Py.str_of_int (-1) = "-1". Proof. reflexivity. Qed.
Example str_of_int_127 : Py.str_of_int 127 = "127". Proof. reflexivity. Qed.
Example strip_ex : Py.strip "  ls -la
 " = "ls -la". Proof. reflexivity. Qed.

Section Executor.
Import Py CommandExecutor ExecSpec.

Lemma truthy_false_iff (s : str) : truthy s = false <-> s = EmptyString.
Proof. destruct s; simpl; split; congruence. Qed.

Lemma truthy_true_iff (s : str) : truthy s = true <-> s <> EmptyString.
Proof. destruct s; simpl; split; congruence. Qed.

Lemma text_or_empty (s : str) : (if truthy s then s else EmptyString) = s.
Proof. destruct s; reflexivity. Qed.

Lemma failed_message_nonempty (rc : Z) : failed_message rc <> EmptyString.
Proof. unfold failed_message. simpl. discriminate. Qed.

(** C1. Whatever the process invocation did (completed with any exit
    code, timed out, failed with an exception), [execute_command]
    returns a record whose [success] is [true] exactly when its
    [return_code] is 0.  The [return_code] is the exit code of the
    process when it completed; after a timeout and after a failure to
    launch it is -1, and [success] is false. *)
Theorem execute_success_iff_zero (self : t) (cmd : str)
        (run : outcome CompletedProcess) :
  handled run ->
  exists r, execute_command self cmd run = Ret r
            /\ success r = (return_code r =? 0)
            /\ match run with
               | Ret result => return_code r = returncode result
               | Raise _ => return_code r = -1 /\ success r = false
               end.
Proof.
  intros H. destruct run as [result | e]; simpl in *.
  - destruct (returncode result =? 0) eqn:E; simpl.
    + eexists; split; [reflexivity | simpl; now rewrite E].
    + destruct (truthy (stderr result));
        (eexists; split; [reflexivity | simpl; now rewrite E]).
  - destruct (exn_class e); try discriminate;
      (eexists; split; [reflexivity | simpl; auto]).
Qed.

Lemma execute_success_iff_zero_witness :
  (exists r, execute_command init "exit 3"
               (Ret {| returncode := 3; stdout := EmptyString;
                       stderr := EmptyString |}) = Ret r
             /\ success r = (return_code r =? 0)
             /\ return_code r = 3)
  /\ (exists r, execute_command init "sleep 60"
                  (Raise {| exn_class := TimeoutExpired;
                            exn_str := "timed out" |}) = Ret r
                /\ success r = (return_code r =? 0)
                /\ return_code r = -1 /\ success r = false)
  /\ (exists r, execute_command init "ls"
                  (Raise {| exn_class := OtherException;
                            exn_str := "[Errno 2] No such file or directory: '/bin/sh'" |})
                = Ret r
                /\ success r = (return_code r =? 0)
                /\ return_code r = -1 /\ success r = false).
Proof.
  split; [| split].
  - apply (execute_success_iff_zero init "exit 3"
             (Ret {| returncode := 3; stdout := EmptyString;
                     stderr := EmptyString |})). exact I.
  - apply (execute_success_iff_zero init "sleep 60"
             (Raise {| exn_class := TimeoutExpired; exn_str := "timed out" |})).
    reflexivity.
  - apply (execute_success_iff_zero init "ls"
             (Raise {| exn_class := OtherException;
                       exn_str := "[Errno 2] No such file or directory: '/bin/sh'" |})).
    reflexivity.
Defined.

(** C2, as the specification has it, fails: a command that exits with
    0 after writing to standard error succeeds with a non-empty
    [error]. *)
Lemma error_nonempty_on_success :
  exists r, execute_command init "make"
              (Ret {| returncode := 0; stdout := "done";
                      stderr := "warning: unused variable" |}) = Ret r
            /\ ~ (error r <> EmptyString <-> success r = false).
Proof.
  eexists; split; [reflexivity |]. simpl. intros [H _].
  discriminate H. discriminate.
Qed.

(** C2, amended. The [error] field of the returned record is non-empty
    exactly when the invocation timed out, or completed (with any exit
    code) with text on standard error, or raised an exception whose
    description is non-empty. *)
Theorem error_nonempty_iff (self : t) (cmd : str)
        (run : outcome CompletedProcess) :
  handled run ->
  exists r, execute_command self cmd run = Ret r
            /\ (error r <> EmptyString <-> leaves_error_text run).
Proof.
  intros H. destruct run as [result | e]; simpl in *.
    - destruct (returncode result =? 0) eqn:E; simpl.
    + eexists; split; [reflexivity | simpl]. now rewrite text_or_empty.
    + destruct (truthy (stderr result)) eqn:T.
      * eexists; split; [reflexivity | simpl].
        apply truthy_true_iff in T. split; intros _; auto.
        apply failed_message_nonempty.
      * eexists; split; [reflexivity | simpl].
        apply truthy_false_iff in T. rewrite T. tauto.
    - destruct (exn_class e); try discriminate;
      (eexists; split; [reflexivity | simpl; try tauto]).
    split; [auto | discriminate].
Qed.

Lemma error_nonempty_iff_witness :
  exists r, execute_command init "false"
              (Ret {| returncode := 1; stdout := EmptyString;
                      stderr := EmptyString |}) = Ret r
            /\ (error r <> EmptyString
                <-> leaves_error_text
                      (Ret {| returncode := 1; stdout := EmptyString;
                              stderr := EmptyString |})).
Proof. apply error_nonempty_iff. simpl. exact I. Defined.

(** C3. When the child process outlives the 30 seconds of the
    executor, the result has [return_code] -1, the output
    "Command timed out (30 seconds)", the error "Timeout", [success]
    false, and the command as given. *)
Theorem execute_timeout (cmd descr : str) :
  execute_command init cmd
    (Raise {| exn_class := TimeoutExpired; exn_str := descr |})
  = Ret {| command := cmd;
           return_code := -1;
           output := "Command timed out (30 seconds)";
           error := "Timeout";
           success := false |}.
Proof. reflexivity. Qed.

(** C4, as the specification has it, fails: after a non-zero exit with
    nothing on standard error the [error] field is empty, not the
    fixed message. *)
Lemma error_empty_when_stderr_empty :
  exists r, execute_command init "false"
              (Ret {| returncode := 1; stdout := EmptyString;
                      stderr := EmptyString |}) = Ret r
            /\ output r = "Command failed with return code 1"
            /\ error r <> "Command failed with return code 1".
Proof. eexists; split; [reflexivity |]. simpl. split; [reflexivity | discriminate]. Qed.

(** C4, amended. After an exit code N other than 0: with text on
    standard error, [output] is that text and [error] is
    "Command failed with return code N"; with none, [output] is
    "Command failed with return code N" and [error] stays empty.
    [success] is false either way. *)
Theorem execute_nonzero (self : t) (cmd : str) (result : CompletedProcess) :
  returncode result <> 0 ->
  exists r, execute_command self cmd (Ret result) = Ret r
            /\ command r = cmd
            /\ return_code r = returncode result
            /\ success r = false
            /\ failed_message (returncode result)
               = ("Command failed with return code "
                    ++ str_of_int (returncode result))%str
            /\ (stderr result <> EmptyString ->
                output r = stderr result
                /\ error r = failed_message (returncode result))
            /\ (stderr result = EmptyString ->
                output r = failed_message (returncode result)
                /\ error r = EmptyString).
Proof.
  intros H. apply Z.eqb_neq in H. unfold execute_command. rewrite H. simpl.
  destruct (truthy (stderr result)) eqn:T.
    - eexists; split; [reflexivity |]. simpl.
    apply truthy_true_iff in T. repeat split; auto; contradiction.
    - eexists; split; [reflexivity |]. simpl.
    apply truthy_false_iff in T. repeat split; auto; contradiction.
Qed.

Lemma execute_nonzero_witness :
  exists r, execute_command init "cat missing"
              (Ret {| returncode := 1; stdout := EmptyString;
                      stderr := "no such file" |}) = Ret r
            /\ command r = "cat missing"
            /\ return_code r = 1
            /\ success r = false
            /\ failed_message 1 = "Command failed with return code 1"
            /\ ("no such file" <> EmptyString ->
                output r = "no such file" /\ error r = failed_message 1)
            /\ ("no such file" = EmptyString ->
                output r = failed_message 1 /\ error r = EmptyString).
Proof.
  apply (execute_nonzero init "cat missing"
           {| returncode := 1; stdout := EmptyString; stderr := "no such file" |}).
  simpl. lia.
Defined.

(** C5, as the specification has it, fails: after exit code 0 the text
    of standard error is not dropped, it is the [error] field. *)
Lemma stderr_kept_on_success :
  exists r, execute_command init "gcc -Wall main.c"
              (Ret {| returncode := 0; stdout := EmptyString;
                      stderr := "main.c:3: warning" |}) = Ret r
            /\ success r = true
            /\ error r = "main.c:3: warning"
            /\ error r <> EmptyString.
Proof.
  eexists; split; [reflexivity |]. simpl.
  repeat split; discriminate.
Qed.

(** C5, amended. After exit code 0 the result has the captured
    standard output as [output], the captured standard error (empty
    when there is none) as [error], and [success] true. *)
Theorem execute_zero (self : t) (cmd : str) (result : CompletedProcess) :
  returncode result = 0 ->
  execute_command self cmd (Ret result)
  = Ret {| command := cmd;
           return_code := 0;
           output := stdout result;
           error := stderr result;
           success := true |}.
Proof.
  intros H. unfold execute_command. rewrite H. simpl.
  now rewrite !text_or_empty.
Qed.

Lemma execute_zero_witness :
  execute_command init "echo hello"
    (Ret {| returncode := 0; stdout := "hello
"; stderr := EmptyString |})
  = Ret {| command := "echo hello";
           return_code := 0;
           output := "hello
";
           error := EmptyString;
           success := true |}.
Proof.
  apply (execute_zero init "echo hello"
           {| returncode := 0; stdout := "hello
"; stderr := EmptyString |}).
  reflexivity.
Defined.

(** C6. An [Exception] other than the timeout, raised while the
    process is launched or run, does not leave [execute_command]: the
    function returns a record with [return_code] -1, the description
    after "Failed to execute command: " as [output], the description
    as [error], and [success] false. *)
Theorem execute_launch_failure (self : t) (cmd : str) (e : exn) :
  is_Exception (exn_class e) = true ->
  exn_class e <> TimeoutExpired ->
  execute_command self cmd (Raise e)
  = Ret {| command := cmd;
           return_code := -1;
           output := "Failed to execute command: " ++ exn_str e;
           error := exn_str e;
           success := false |}.
Proof.
  intros HE HT. unfold execute_command.
  destruct (exn_class e); try reflexivity; [congruence | discriminate].
Qed.

Lemma execute_launch_failure_witness :
  execute_command init "ls"
    (Raise {| exn_class := OtherException;
              exn_str := "[Errno 13] Permission denied: '/bin/sh'" |})
  = Ret {| command := "ls";
           return_code := -1;
           output := "Failed to execute command: [Errno 13] Permission denied: '/bin/sh'";
           error := "[Errno 13] Permission denied: '/bin/sh'";
           success := false |}.
Proof.
  apply (execute_launch_failure init "ls"
           {| exn_class := OtherException;
              exn_str := "[Errno 13] Permission denied: '/bin/sh'" |});
    simpl; [reflexivity | discriminate].
Defined.

End Executor.

(** ** The search of [re] against what a pattern means *)

Import Py Re.

Lemma in_range_true lo hi c :
  in_range lo hi c = true <-> (lo <= c /\ c <= hi)%N.
Proof. unfold in_range. now rewrite andb_true_iff, !N.leb_le. Qed.

Lemma in_range_false lo hi c :
  in_range lo hi c = false <-> (c < lo \/ hi < c)%N.
Proof.
  unfold in_range. rewrite andb_false_iff, !N.leb_gt. tauto.
Qed.

Lemma eqc_true a b : eqc a b = true <-> a = b.
Proof. apply N.eqb_eq. Qed.

Lemma eqc_false a b : eqc a b = false <-> a <> b.
Proof. apply N.eqb_neq. Qed.

(** Decide the comparisons of a goal about characters, then leave
    arithmetic. *)
Ltac split_range lo hi c :=
  let E := fresh "E" in
  destruct (in_range lo hi c) eqn:E;
  [apply in_range_true in E | apply in_range_false in E].

Ltac split_eqc a b :=
  let E := fresh "E" in
  destruct (eqc a b) eqn:E; [apply eqc_true in E | apply eqc_false in E].

Ltac by_ranges :=
  repeat match goal with
         | |- context [in_range ?lo ?hi ?c] => is_var c; split_range lo hi c
         | |- context [eqc ?a ?b] => is_var a; split_eqc a b
         end;
  simpl;
  repeat match goal with
         | |- context [in_range ?lo ?hi ?c] => split_range lo hi c
         | |- context [eqc ?a ?b] => split_eqc a b
         end;
  simpl; try reflexivity; try lia.

Section Characters.
Import Py Re.



Lemma lower_lower c : lower (lower c) = lower c.
Proof. unfold lower. by_ranges. Qed.








End Characters.

Section Matching.
Import Py Re ReSpec.

Variable ic : bool.

(** A match never moves backwards, and one that consumes nothing ends
    where it started. *)
Lemma Matches_length r p s p' s' :
  Matches ic r p s p' s' ->
  (Str.length s' <= Str.length s)%nat
  /\ (Str.length s' = Str.length s -> p' = p /\ s' = s).
Proof.
  induction 1; simpl in *.
    - auto.
    - split; [lia | intros; lia].
    - auto.
    - destruct IHMatches1 as [L1 E1], IHMatches2 as [L2 E2].
    split; [lia |]. intros E.
    destruct E2 as [-> ->]; [lia |]. apply E1. lia.
    - auto.
    - destruct IHMatches1 as [L1 E1], IHMatches2 as [L2 E2].
    split; [lia |]. intros E.
    destruct E2 as [-> ->]; [lia |]. apply E1. lia.
Qed.

Lemma star_loop_stop body g fuel p s : In (p, s) (star_loop body g fuel p s).
Proof.
  destruct fuel; simpl; [now left |].
  destruct g; [apply in_or_app; right; now left | now left].
Qed.

Lemma star_loop_step body g fuel p s q x :
  In q (body p s) ->
  (Str.length (snd q) < Str.length s)%nat ->
  In x (star_loop body g fuel (fst q) (snd q)) ->
  In x (star_loop body g (S fuel) p s).
Proof.
  intros Hq Hlt Hx. simpl.
  assert (Hm : In x (flat_map
                       (fun q : pos =>
                          if (Str.length (snd q) <? Str.length s)%nat
                          then star_loop body g fuel (fst q) (snd q)
                          else []) (body p s))).
  { apply in_flat_map. exists q. split; [assumption |].
    apply Nat.ltb_lt in Hlt. now rewrite Hlt. }
  destruct g; [apply in_or_app; now left | now right].
Qed.

(** Enough fuel lets the loop reach every end of the starred pattern. *)
Lemma star_loop_complete g r (body : option char -> str -> list pos) :
  (forall p s p' s', Matches ic r p s p' s' -> In (p', s') (body p s)) ->
  forall p s p' s',
    Matches ic (Star g r) p s p' s' ->
    forall fuel, (Str.length s <= fuel)%nat ->
                 In (p', s') (star_loop body g fuel p s).
Proof.
  intros Hbody p s p' s' H.
  remember (Star g r) as r0 eqn:E.
  induction H; try discriminate; injection E as -> ->.
    - intros. apply star_loop_stop.
    - intros fuel Hf. specialize (IHMatches2 eq_refl).
    destruct (Matches_length H) as [Hle Heq].
    destruct (Nat.eq_dec (Str.length s1) (Str.length s)) as [En | Hn].
    + destruct (Heq En) as [-> ->]. now apply IHMatches2.
    + destruct fuel as [| fuel]; [lia |].
      apply star_loop_step with (q := (p1, s1)); simpl.
      * now apply Hbody.
      * lia.
      * apply IHMatches2. lia.
Qed.

Lemma star_loop_sound g r (body : option char -> str -> list pos) :
  (forall p s q, In q (body p s) -> Matches ic r p s (fst q) (snd q)) ->
  forall fuel p s q,
    In q (star_loop body g fuel p s) -> Matches ic (Star g r) p s (fst q) (snd q).
Proof.
  intros Hbody. induction fuel as [| fuel IH]; intros p s q Hq; simpl in Hq.
    - destruct Hq as [<- | []]. apply MStarStop.
    - assert (Hcases : q = (p, s)
                     \/ In q (flat_map
                                (fun q : pos =>
                                   if (Str.length (snd q) <? Str.length s)%nat
                                   then star_loop body g fuel (fst q) (snd q)
                                   else []) (body p s))).
    { destruct g.
      - apply in_app_or in Hq. destruct Hq as [Hq | [<- | []]]; auto.
      - destruct Hq as [<- | Hq]; auto. }
    destruct Hcases as [-> | Hm]; [apply MStarStop |].
    apply in_flat_map in Hm. destruct Hm as [m [Hm Hin]].
    destruct (Str.length (snd m) <? Str.length s)%nat; [| destruct Hin].
    eapply MStarStep; [apply Hbody; eassumption | now apply IH].
Qed.

(** Every match of the pattern is among the ends the engine lists. *)
Lemma rmatch_complete r :
  forall p s p' s', Matches ic r p s p' s' -> In (p', s') (rmatch ic r p s).
Proof.
  induction r as [| k | a | r1 IH1 r2 IH2 | g r IH]; intros p s p' s' H.
    - inversion H; subst. now left.
    - inversion H; subst. simpl. rewrite H1. now left.
    - inversion H; subst. simpl. rewrite H1. now left.
    - inversion H; subst. simpl. apply in_flat_map.
    exists (p1, s1). split; [now apply IH1 | now apply IH2].
    - simpl. eapply star_loop_complete; eauto.
Qed.

(** Every end the engine lists is a match of the pattern. *)
Lemma rmatch_sound r :
  forall p s q, In q (rmatch ic r p s) -> Matches ic r p s (fst q) (snd q).
Proof.
  induction r as [| k | a | r1 IH1 r2 IH2 | g r IH]; intros p s q H; simpl in H.
    - destruct H as [<- | []]. apply MEps.
    - destruct s as [| c t]; [destruct H |].
    destruct (cmatch ic k c) eqn:E; [| destruct H].
    destruct H as [<- | []]. now apply MChr.
    - destruct (holds a p s) eqn:E; [| destruct H].
    destruct H as [<- | []]. now apply MAssert.
    - apply in_flat_map in H. destruct H as [m [Hm Hq]].
    eapply MSeq; [apply IH1; eassumption | now apply IH2].
    - eapply star_loop_sound; eauto.
Qed.

Lemma search_from_eq r p s :
  search_from ic r p s
  = match rmatch ic r p s with
    | _ :: _ => true
    | [] => match s with
            | EmptyString => false
            | String c t => search_from ic r (Some c) t
            end
    end.
Proof. destruct s; reflexivity. Qed.

Lemma search_from_complete r pre :
  forall p rest p' s',
    Matches ic r (last_of p pre) rest p' s' ->
    search_from ic r p (pre ++ rest) = true.
Proof.
  induction pre as [| c pre IH]; intros p rest p' s' H; simpl in H.
    - change (EmptyString ++ rest)%str with rest.
    rewrite search_from_eq. apply rmatch_complete in H.
    destruct (rmatch ic r p rest); [destruct H | reflexivity].
    - change (String c pre ++ rest)%str with (String c (pre ++ rest)).
    rewrite search_from_eq.
    destruct (rmatch ic r p (String c (pre ++ rest))); [| reflexivity].
    eapply IH; eassumption.
Qed.

Lemma search_from_sound r s :
  forall p, search_from ic r p s = true ->
            exists pre rest p' s',
              s = (pre ++ rest)%str /\ Matches ic r (last_of p pre) rest p' s'.
Proof.
  induction s as [| c t IH]; intros p H; rewrite search_from_eq in H.
    - destruct (rmatch ic r p EmptyString) as [| q l] eqn:E; [discriminate |].
    exists EmptyString, EmptyString, (fst q), (snd q). split; [reflexivity |].
    simpl. apply rmatch_sound. rewrite E. now left.
    - destruct (rmatch ic r p (String c t)) as [| q l] eqn:E.
    + destruct (IH _ H) as (pre & rest & p' & s' & -> & HM).
      exists (String c pre), rest, p', s'. split; [reflexivity | exact HM].
    + exists EmptyString, (String c t), (fst q), (snd q). split; [reflexivity |].
      simpl. apply rmatch_sound. rewrite E. now left.
Qed.

(** [re.search] finds a match exactly when the text contains one. *)
Lemma search_iff_Contains r s : search ic r s = true <-> Contains ic r s.
Proof.
  unfold search, Contains. split.
    - apply search_from_sound.
    - intros (pre & rest & p' & s' & -> & H). eapply search_from_complete; eauto.
Qed.
End Matching.


(** ** Letter case *)

Section LetterCase.
Import Py Re ReSpec.










End LetterCase.

(** ** The safety gate *)

Section Denylist.
Import Py Re ReSpec TranslateSpec GateSpec GeminiService.

Lemma last_of_app p x y : last_of p (x ++ y) = last_of (last_of p x) y.
Proof. revert p. induction x as [| c x IH]; intros p; simpl; [reflexivity | apply IH]. Qed.

Lemma word_after_app s post :
  word_after post = false -> word_after (s ++ post) = word_after s.
Proof. destruct s; simpl; [now intros -> | reflexivity]. Qed.

Lemma append_assoc (x y z : str) : ((x ++ y) ++ z = x ++ (y ++ z))%str.
Proof. induction x as [| c x IH]; simpl; [reflexivity | now rewrite IH]. Qed.











End Denylist.

Section SafetyGate.
Import Py Re ReSpec TranslateSpec GateSpec GeminiService.



(** Beyond ASCII the gate follows Python's Unicode rules: the accented
    letter before [halt] is a word character, so there is no word
    boundary and no match; the long s is an [s] to [re.IGNORECASE]; a
    no-break space is white space; the Kelvin sign is a letter of
    [[a-z]]. *)
Example gate_beyond_ascii :
  map _is_dangerous_command
      [String 233 "halt";
       String 383 "hutdown";
       "rm" ++ String 160 ("-rf" ++ String 160 "/");
       "> /dev/sd" ++ String 8490 EmptyString]
  = [false; true; true; true].
Proof. vm_compute. reflexivity. Qed.

(** [strip] removes the white space of Unicode, not of ASCII alone. *)
Example strip_beyond_ascii :
  strip (String 160 ("ls -la" ++ String 8195 (String 133 EmptyString))) = "ls -la"
  /\ strip (String 160 (String 12288 EmptyString)) = EmptyString
  /\ strip (String 8203 "x") = String 8203 "x".
Proof. vm_compute. repeat split. Qed.

(** The patterns are those of the source and no wider: other spellings
    of the same operations, and words that merely contain a keyword, are
    not matched. *)
Example denylist_not_matched :
  map _is_dangerous_command
      ["rm -fr /"; "dd of=/dev/sda if=/dev/zero"; "halting"; "information"]
  = [false; false; false; false].
Proof. vm_compute. reflexivity. Qed.
End SafetyGate.


(** ** The translator and the route *)

Section Translation.
Import Py Re ReSpec GeminiService App TranslateSpec.

Variable message : builtin_error -> str.

Lemma rstrip_no_newline s : has_newline s = false -> has_newline (rstrip s) = false.
Proof.
  induction s as [| c s IH]; simpl; [reflexivity |].
  intros H. apply orb_false_iff in H. destruct H as [Hc Hs].
  specialize (IH Hs). destruct (rstrip s) eqn:E.
  - destruct (is_space c); simpl; [reflexivity | now rewrite Hc].
  - simpl in *. now rewrite Hc.
Qed.

Lemma lstrip_no_newline s : has_newline s = false -> has_newline (lstrip s) = false.
Proof.
  induction s as [| c s IH]; simpl; [reflexivity |].
  intros H. destruct (is_space c); [| exact H].
  apply orb_false_iff in H. now apply IH.
Qed.

Lemma first_line_no_newline s : has_newline (first_line s) = false.
Proof.
  induction s as [| c s IH]; simpl; [reflexivity |].
  destruct (eqc c newline) eqn:E; simpl; [reflexivity | now rewrite E].
Qed.

(** What [_clean_command_response] returns is one line. *)
Lemma clean_single_line text : has_newline (_clean_command_response text) = false.
Proof.
  unfold _clean_command_response, strip.
  apply rstrip_no_newline, lstrip_no_newline, first_line_no_newline.
Qed.

(** Had the second substitution been applied to the result of the first,
    the fenced reply would have been cleaned to the command. *)
Lemma chained_substitutions_unwrap :
  strip (first_line (strip (Re.sub false fence_close EmptyString
                              (Re.sub false fence_open EmptyString
                                 "```bash
ls -la
```"))))
  = "ls -la".
Proof. vm_compute. reflexivity. Qed.

(** C9 on the code: for a reply wrapped in a code fence,
    [_clean_command_response] returns the opening fence marker and not
    the command inside the fence. *)
Theorem clean_fenced_returns_marker :
  _clean_command_response "```bash
ls -la
```" = "```bash"
  /\ _clean_command_response "```
ls -la
```" = "```".
Proof. split; vm_compute; reflexivity. Qed.

Lemma convert_body_shape self query post r :
  convert_body message self query post = Ret r -> command_or_error r.
Proof.
  unfold convert_body, no_candidates, command_text_of. intros H.
  repeat match type of H with
         | context [bind ?m _] =>
             let E := fresh "E" in
             destruct m eqn:E; simpl in H; [| discriminate H]
         | context [if ?b then _ else _] =>
             let E := fresh "E" in
             destruct b eqn:E; simpl in H
         end;
    try discriminate H; injection H as <-; simpl; auto; discriminate.
Qed.

Lemma convert_dangerous self query post response result command_text :
  is_configured self = true ->
  post (url self) (headers self) (_build_prompt query) = Ret response ->
  status_code response = 200 ->
  json response = Ret result ->
  no_candidates message result = Ret false ->
  command_text_of message result = Ret (JStr command_text) ->
  _is_dangerous_command (_clean_command_response command_text) = true ->
  convert_natural_language_to_command message self query post
  = Ret (None, Some "Command rejected for safety reasons.").
Proof.
  intros Hc Hp Hs Hj Hn Ht Hd.
  unfold convert_natural_language_to_command, convert_body.
  rewrite Hc, Hp. simpl. rewrite Hs. simpl. rewrite Hj. simpl.
  rewrite Hn. simpl. rewrite Ht. simpl. rewrite Hd. reflexivity.
Qed.

Lemma process_error_reply self executor get_json post run query reason :
  read_query message get_json = Ret (inr query) ->
  convert_natural_language_to_command message self query post
  = Ret (None, Some reason) ->
  reason <> EmptyString ->
  process_natural_language message self executor get_json post run
  = (Ret {| status := 400;
            body := [("error", JStr reason);
                     ("original_query", JStr query);
                     ("mode", JStr "natural_language")] |}, []).
Proof.
  intros Hq Hc Hr. unfold process_natural_language, process_body.
  rewrite Hq, Hc. simpl.
  destruct reason; [contradiction | reflexivity].
Qed.

(** C8. When the reply of the translator yields a candidate that
    contains a match of a pattern of the deny list,
    [convert_natural_language_to_command] returns no command and the
    error "Command rejected for safety reasons.", and the route answers
    400 with that error without handing anything to the executor. *)
Theorem dangerous_candidate_rejected
        (self : GeminiService.t) (executor : CommandExecutor.t)
        (query : str)
        (post : str -> list (str * option str) -> str
                -> outcome Response)
        (response : Response) (result : Py.json) (command_text : str)
        (pattern : regex)
        (get_json : outcome Py.json)
        (run : str -> outcome CommandExecutor.CompletedProcess) :
  is_configured self = true ->
  post (url self) (headers self) (_build_prompt query) = Ret response ->
  status_code response = 200 ->
  json response = Ret result ->
  no_candidates message result = Ret false ->
  command_text_of message result = Ret (JStr command_text) ->
  In pattern dangerous_patterns ->
  Contains true pattern (_clean_command_response command_text) ->
  read_query message get_json = Ret (inr query) ->
  convert_natural_language_to_command message self query post
  = Ret (None, Some "Command rejected for safety reasons.")
  /\ process_natural_language message self executor get_json post run
     = (Ret {| status := 400;
               body := [("error", JStr "Command rejected for safety reasons.");
                        ("original_query", JStr query);
                        ("mode", JStr "natural_language")] |}, []).
Proof.
  intros Hc Hp Hs Hj Hn Ht Hin Hm Hq.
  assert (Hd : _is_dangerous_command (_clean_command_response command_text)
               = true).
  { unfold _is_dangerous_command. apply existsb_exists.
    exists pattern. split; [exact Hin | now apply search_iff_Contains]. }
  assert (Hconv := convert_dangerous self query post Hc Hp Hs Hj Hn Ht Hd).
  split; [exact Hconv |].
  apply process_error_reply; [exact Hq | exact Hconv | discriminate].
Qed.

(** C10, amended. Whatever the service, the query and the upstream
    reply, [convert_natural_language_to_command] returns a command
    (possibly empty) with no error, or a non-empty error with no command,
    never both and never neither; only an exception that is not an
    [Exception] leaves it.  An empty command with no error is answered by
    the route with 400 "Could not convert query to command", and nothing
    is handed to the executor. *)
Theorem convert_command_or_error
        (self : GeminiService.t) (executor : CommandExecutor.t)
        (query : str)
        (post : str -> list (str * option str) -> str
                -> outcome Response)
        (get_json : outcome Py.json)
        (run : str -> outcome CommandExecutor.CompletedProcess) :
  match convert_natural_language_to_command message self query post with
  | Ret r => command_or_error r
  | Raise e => is_Exception (exn_class e) = false
  end
  /\ (read_query message get_json = Ret (inr query) ->
      convert_natural_language_to_command message self query post
      = Ret (Some EmptyString, None) ->
      process_natural_language message self executor get_json post run
      = (Ret {| status := 400;
                body := [("error", JStr "Could not convert query to command");
                         ("original_query", JStr query);
                         ("mode", JStr "natural_language")] |}, [])).
Proof.
  split.
  - unfold convert_natural_language_to_command.
    destruct (is_configured self); simpl; [| discriminate].
    destruct (convert_body message self query post) as [r | e] eqn:E.
    + eapply convert_body_shape; eassumption.
    + destruct (exn_class e) eqn:C; simpl; try discriminate. now rewrite C.
  - intros Hq Hc. unfold process_natural_language, process_body.
    rewrite Hq, Hc. reflexivity.
Qed.
End Translation.

Section TranslationWitnesses.
Import Py Re ReSpec GeminiService App TranslateSpec.

Lemma dangerous_candidate_rejected_witness :
  convert_natural_language_to_command (fun _ => "error") (init (Some "key"))
    "wipe the disk" (fun _ _ _ => Ret (reply_with_text "rm -rf /"))
  = Ret (None, Some "Command rejected for safety reasons.")
  /\ process_natural_language (fun _ => "error") (init (Some "key"))
       CommandExecutor.init
       (Ret (JDict [("query", JStr " wipe the disk ")]))
       (fun _ _ _ => Ret (reply_with_text "rm -rf /"))
       (fun _ => Ret {| CommandExecutor.returncode := 0;
                        CommandExecutor.stdout := EmptyString;
                        CommandExecutor.stderr := EmptyString |})
     = (Ret {| status := 400;
               body := [("error", JStr "Command rejected for safety reasons.");
                        ("original_query", JStr "wipe the disk");
                        ("mode", JStr "natural_language")] |}, []).
Proof.
  apply (@dangerous_candidate_rejected (fun _ => "error") (init (Some "key"))
           CommandExecutor.init "wipe the disk"
           (fun _ _ _ => Ret (reply_with_text "rm -rf /"))
           (reply_with_text "rm -rf /")
           (JDict [("candidates",
                    JList [JDict [("content",
                                   JDict [("parts",
                                           JList [JDict [("text", JStr "rm -rf /")]])])]])])
           "rm -rf /"
           (cat [Assert WordB; lits "rm"; Plus (Chr Space);
                 lits "-rf"; Plus (Chr Space); lits "/"])).
  - reflexivity.
  - reflexivity.
  - reflexivity.
  - reflexivity.
  - reflexivity.
  - reflexivity.
  - simpl. tauto.
  - apply search_iff_Contains. vm_compute. reflexivity.
  - reflexivity.
Defined.
(** C10, as the specification has it, fails: a reply whose text is
    blank is cleaned to the empty command, which is returned with no
    error. *)
Lemma convert_returns_empty_command :
  convert_natural_language_to_command (fun _ => "error") (init (Some "key")) "do nothing"
    (fun _ _ _ => Ret (reply_with_text "   "))
  = Ret (Some EmptyString, None)
  /\ ~ nonempty_command_or_error (Some EmptyString, None).
Proof. split; [reflexivity | simpl; congruence]. Qed.

Lemma convert_command_or_error_witness :
  command_or_error (Some EmptyString, None)
  /\ process_natural_language (fun _ => "error") (init (Some "key"))
       CommandExecutor.init
       (Ret (JDict [("query", JStr "do nothing")]))
       (fun _ _ _ => Ret (reply_with_text "   "))
       (fun _ => Ret {| CommandExecutor.returncode := 0;
                        CommandExecutor.stdout := EmptyString;
                        CommandExecutor.stderr := EmptyString |})
     = (Ret {| status := 400;
               body := [("error", JStr "Could not convert query to command");
                        ("original_query", JStr "do nothing");
                        ("mode", JStr "natural_language")] |}, []).
Proof.
  split.
  - exact (proj1 (@convert_command_or_error (fun _ => "error")
                    (init (Some "key")) CommandExecutor.init "do nothing"
                    (fun _ _ _ => Ret (reply_with_text "   "))
                    (Ret (JDict [("query", JStr "do nothing")]))
                    (fun _ => Ret {| CommandExecutor.returncode := 0;
                                     CommandExecutor.stdout := EmptyString;
                                     CommandExecutor.stderr := EmptyString |}))).
  - apply (proj2 (@convert_command_or_error (fun _ => "error")
                    (init (Some "key")) CommandExecutor.init "do nothing"
                    (fun _ _ _ => Ret (reply_with_text "   "))
                    (Ret (JDict [("query", JStr "do nothing")]))
                    (fun _ => Ret {| CommandExecutor.returncode := 0;
                                     CommandExecutor.stdout := EmptyString;
                                     CommandExecutor.stderr := EmptyString |})));
      reflexivity.
Defined.
End TranslationWitnesses.

(** * Further properties of the executor *)

Section ExecutorMore.
Import Py CommandExecutor ExecSpec.

(** X1. Whatever the invocation did, the returned record carries the
    command as given, and a record that reports failure always has text
    in [output]. *)
Theorem failure_has_output (self : t) (cmd : str)
        (run : outcome CompletedProcess) :
  handled run ->
  exists r, execute_command self cmd run = Ret r
            /\ command r = cmd
            /\ (success r = false -> output r <> EmptyString).
Proof.
  intros H. destruct run as [result | e]; simpl in *.
  - destruct (returncode result =? 0) eqn:E; simpl.
    + eexists; split; [reflexivity |]. simpl.
      split; [reflexivity | discriminate].
    + destruct (truthy (stderr result)) eqn:T;
        (eexists; split; [reflexivity |]; simpl; split; [reflexivity |]);
        intros _.
      * now apply truthy_true_iff.
      * apply failed_message_nonempty.
  - destruct (exn_class e); try discriminate;
      (eexists; split; [reflexivity |]; simpl; split; [reflexivity |]);
      intros _; discriminate.
Qed.

Lemma failure_has_output_witness :
  exists r, execute_command init "sleep 60"
              (Raise {| exn_class := TimeoutExpired; exn_str := EmptyString |})
            = Ret r
            /\ command r = "sleep 60"
            /\ (success r = false -> output r <> EmptyString).
Proof. apply failure_has_output. reflexivity. Defined.

(** X2. After a non-zero exit the captured standard output is lost: the
    result is the same whatever the process printed there. *)
Theorem stdout_lost_on_failure (self : t) (cmd : str) (rc : Z)
        (out1 out2 err : str) :
  rc <> 0 ->
  execute_command self cmd
    (Ret {| returncode := rc; stdout := out1; stderr := err |})
  = execute_command self cmd
      (Ret {| returncode := rc; stdout := out2; stderr := err |}).
Proof.
  intros H. apply Z.eqb_neq in H. unfold execute_command. simpl.
  rewrite H. simpl. destruct (truthy err); reflexivity.
Qed.

Lemma stdout_lost_on_failure_witness :
  execute_command init "make"
    (Ret {| returncode := 2; stdout := "compiling a.c"; stderr := "error" |})
  = execute_command init "make"
      (Ret {| returncode := 2; stdout := EmptyString; stderr := "error" |}).
Proof. apply stdout_lost_on_failure. lia. Defined.

Lemma of_string_inj a : forall b, Str.of_string a = Str.of_string b -> a = b.
Proof.
  induction a as [| x a IH]; intros [| y b] H; simpl in H; try discriminate H.
  - reflexivity.
  - injection H as Hc Ht. f_equal; [| now apply IH].
    rewrite <- (Ascii.ascii_N_embedding x), <- (Ascii.ascii_N_embedding y).
    now rewrite Hc.
Qed.

Lemma str_of_int_inj a b : str_of_int a = str_of_int b -> a = b.
Proof.
  unfold str_of_int. intros H. apply of_string_inj in H.
  apply DecimalZ.to_int_inj.
  assert (Hn : forall z, Z.to_int z <> Decimal.Pos Decimal.Nil
                         /\ Z.to_int z <> Decimal.Neg Decimal.Nil).
  { intros [| p | p]; simpl; split; try discriminate;
      intros E; injection E as E; now apply DecimalPos.Unsigned.to_uint_nonnil in E. }
  destruct (Hn a) as [Ha1 Ha2], (Hn b) as [Hb1 Hb2].
  pose proof (DecimalString.NilZero.isi _ Ha1 Ha2) as Ia.
  pose proof (DecimalString.NilZero.isi _ Hb1 Hb2) as Ib.
  rewrite H in Ia. rewrite Ia in Ib. now injection Ib.
Qed.

(** X3. The message of a failed command tells the exit code: different
    codes give different messages. *)
Theorem failed_message_distinct (a b : Z) :
  a <> b -> failed_message a <> failed_message b.
Proof.
  intros Hab H. apply Hab. unfold failed_message in H. simpl in H.
  injection H as H. now apply str_of_int_inj.
Qed.

Lemma failed_message_distinct_witness : failed_message 1 <> failed_message 127.
Proof. apply failed_message_distinct. lia. Defined.
End ExecutorMore.

(** * Further properties of the clean-up of a reply *)

Section CleanMore.
Import Py Re GeminiService TranslateSpec GateSpec.

Lemma rstrip_idem s : rstrip (rstrip s) = rstrip s.
Proof.
  induction s as [| c s IH]; simpl; [reflexivity |].
  destruct (rstrip s) as [| d u] eqn:E.
  - destruct (is_space c) eqn:Sc; simpl; [reflexivity | now rewrite Sc].
  - simpl in IH. simpl. destruct (rstrip u) as [| d' u'] eqn:Eu.
    + destruct (is_space d) eqn:Sd; [discriminate IH |].
      injection IH as <-. reflexivity.
    + injection IH as <-. reflexivity.
Qed.

Lemma lstrip_head s : starts_with_space (lstrip s) = false.
Proof.
  induction s as [| c s IH]; simpl; [reflexivity |].
  destruct (is_space c) eqn:E; [exact IH | simpl; exact E].
Qed.

Lemma lstrip_fixed s : starts_with_space s = false -> lstrip s = s.
Proof. destruct s as [| c s]; simpl; [reflexivity | now intros ->]. Qed.

Lemma rstrip_head s : starts_with_space s = false -> starts_with_space (rstrip s) = false.
Proof.
  destruct s as [| c s]; simpl; [reflexivity |]. intros H.
  destruct (rstrip s); simpl; [now rewrite H | exact H].
Qed.

Lemma strip_head s : starts_with_space (strip s) = false.
Proof. unfold strip. apply rstrip_head, lstrip_head. Qed.

Lemma rstrip_tail s : ends_with_space (rstrip s) = false.
Proof.
  induction s as [| c s IH]; simpl; [reflexivity |].
  destruct (rstrip s) as [| d u] eqn:E.
  - destruct (is_space c) eqn:Sc; simpl; [reflexivity | exact Sc].
  - exact IH.
Qed.

Lemma strip_idem s : strip (strip s) = strip s.
Proof.
  unfold strip. rewrite (lstrip_fixed (rstrip (lstrip s))).
  - apply rstrip_idem.
  - apply rstrip_head, lstrip_head.
Qed.

(** X4. What [_clean_command_response] returns is one trimmed line: it
    holds no line feed, it neither starts nor ends with white space, and
    trimming it again changes nothing. *)
Theorem clean_trimmed (text : str) :
  has_newline (_clean_command_response text) = false
  /\ starts_with_space (_clean_command_response text) = false
  /\ ends_with_space (_clean_command_response text) = false
  /\ strip (_clean_command_response text) = _clean_command_response text.
Proof.
  split; [apply clean_single_line |].
  unfold _clean_command_response. repeat split.
  - apply strip_head.
  - unfold strip. apply rstrip_tail.
  - apply strip_idem.
Qed.

Lemma first_line_fixed s : has_newline s = false -> first_line s = s.
Proof.
  induction s as [| c s IH]; simpl; [reflexivity |].
  intros H. apply orb_false_iff in H. destruct H as [Hc Hs].
  rewrite Hc. now rewrite IH.
Qed.

Lemma strip_no_newline s : has_newline s = false -> has_newline (strip s) = false.
Proof. intros H. unfold strip. now apply rstrip_no_newline, lstrip_no_newline. Qed.

(** Where the text has no line feed the closing fence is nowhere to be
    found, and the substitution leaves the text as it is. *)
Lemma sub_fence_close_fixed fuel :
  forall p s, has_newline s = false ->
              sub_from false fence_close EmptyString fuel false p s = s.
Proof.
  induction fuel as [| fuel IH]; intros p s H; [reflexivity |].
  destruct s as [| c s]; [reflexivity |].
  simpl in H. apply orb_false_iff in H. destruct H as [Hc Hs].
  simpl sub_from. unfold fence_close. simpl.
  rewrite Hc. simpl. now rewrite IH.
Qed.

Lemma clean_of_one_line text :
  has_newline text = false -> _clean_command_response text = strip text.
Proof.
  intros H. unfold _clean_command_response, sub.
  rewrite sub_fence_close_fixed by exact H.
  rewrite first_line_fixed by (now apply strip_no_newline).
  apply strip_idem.
Qed.

(** X5. A reply of one line is cleaned by trimming it, no more. *)
Theorem clean_one_line (text : str) :
  has_newline text = false ->
  _clean_command_response text = strip text.
Proof. apply clean_of_one_line. Qed.

Lemma clean_one_line_witness :
  _clean_command_response "  ls -la  " = strip "  ls -la  ".
Proof. apply clean_one_line. reflexivity. Defined.

(** X6. Cleaning is idempotent: a cleaned reply is left as it is by a
    second cleaning. *)
Theorem clean_idempotent (text : str) :
  _clean_command_response (_clean_command_response text)
  = _clean_command_response text.
Proof.
  rewrite clean_of_one_line by apply clean_single_line.
  unfold _clean_command_response at 2. apply strip_idem.
Qed.
End CleanMore.

(** * Further properties of the safety gate *)

Section GateMore.
Import Py Re ReSpec GeminiService GateSpec.

Lemma is_dangerous_iff_match_aux (command : str) :
  _is_dangerous_command command = true
  <-> exists pattern, In pattern dangerous_patterns
                      /\ Contains true pattern command.
Proof.
  unfold _is_dangerous_command. rewrite existsb_exists.
  split; intros [r [Hin H]]; exists r; (split; [exact Hin |]);
    now apply search_iff_Contains.
Qed.

(** X7. [_is_dangerous_command] answers [true] exactly for the commands
    that contain a match of a pattern of the list: it misses none, and it
    flags nothing else. *)
Theorem is_dangerous_iff_match (command : str) :
  _is_dangerous_command command = true
  <-> exists pattern, In pattern dangerous_patterns
                      /\ Contains true pattern command.
Proof. apply is_dangerous_iff_match_aux. Qed.

(** A match of a pattern without [^] and [$] is still a match when text
    that starts with no word character is appended, and when the match
    starts after another character that is a word character or not as
    the one before. *)
Lemma Matches_in_context r p s p' s' :
  Matches true r p s p' s' ->
  anchor_free r = true ->
  forall q post,
    word_before q = word_before p ->
    word_after post = false ->
    exists q', Matches true r q (s ++ post) q' (s' ++ post)
               /\ word_before q' = word_before p'.
Proof.
  induction 1; intros Ha q post Hq Hpost; simpl in Ha.
  - exists q. split; [apply MEps | exact Hq].
  - exists (Some c). split; [now apply MChr | reflexivity].
  - destruct a; try discriminate Ha.
    exists q. split; [| exact Hq]. apply MAssert. simpl in *.
    now rewrite Hq, word_after_app.
  - apply andb_true_iff in Ha. destruct Ha as [Ha1 Ha2].
    destruct (IHMatches1 Ha1 q post Hq Hpost) as [q1 [M1 W1]].
    destruct (IHMatches2 Ha2 q1 post W1 Hpost) as [q2 [M2 W2]].
    exists q2. split; [eapply MSeq; eassumption | exact W2].
  - exists q. split; [apply MStarStop | exact Hq].
  - destruct (IHMatches1 Ha q post Hq Hpost) as [q1 [M1 W1]].
    destruct (IHMatches2 Ha q1 post W1 Hpost) as [q2 [M2 W2]].
    exists q2. split; [eapply MStarStep; eassumption | exact W2].
Qed.

Lemma word_before_last_of_app pre a :
  word_before (last_of None pre) = false ->
  word_before (last_of None (pre ++ a)) = word_before (last_of None a).
Proof.
  intros H. rewrite last_of_app. destruct a as [| c a]; simpl; [exact H | reflexivity].
Qed.

Lemma dangerous_patterns_anchor_free :
  forall r, In r dangerous_patterns -> anchor_free r = true.
Proof.
  apply Forall_forall. unfold dangerous_patterns.
  repeat constructor.
Qed.

(** X8. A dangerous command stays dangerous inside a longer command
    line, as long as it is set off from what precedes and what follows by
    characters that are not word characters (a space, a semicolon, an
    ampersand, a pipe). *)
Theorem dangerous_inside_command_line (pre command post : str) :
  _is_dangerous_command command = true ->
  word_before (last_of None pre) = false ->
  word_after post = false ->
  _is_dangerous_command (pre ++ command ++ post) = true.
Proof.
  intros Hd Hpre Hpost.
  apply is_dangerous_iff_match_aux in Hd.
  destruct Hd as [r [Hin (a & rest & p' & s' & -> & HM)]].
  apply is_dangerous_iff_match_aux. exists r. split; [exact Hin |].
  destruct (@Matches_in_context r _ _ _ _ HM
              (@dangerous_patterns_anchor_free r Hin)
              (last_of None (pre ++ a)) post
              (@word_before_last_of_app pre a Hpre) Hpost) as [q' [M _]].
  exists (pre ++ a)%str, (rest ++ post)%str, q', (s' ++ post)%str.
  split; [| exact M].
  now rewrite !append_assoc.
Qed.

Lemma dangerous_inside_command_line_witness :
  _is_dangerous_command ("ls -la; " ++ "rm -rf /" ++ " && echo done") = true.
Proof. apply dangerous_inside_command_line; reflexivity. Defined.
End GateMore.

(** * Further properties of the translator and of the routes *)

Section RoutesMore.
Import Py Re ReSpec GeminiService TranslateSpec GateSpec ExecSpec.

Variable message : builtin_error -> str.

Ltac through H :=
  repeat match type of H with
         | context [bind ?m _] =>
             let E := fresh "E" in
             destruct m eqn:E; simpl in H; [| try discriminate H]
         | context [if ?b then _ else _] =>
             let E := fresh "E" in
             destruct b eqn:E; simpl in H
         end.

Lemma convert_body_command self query post c e :
  convert_body message self query post = Ret (Some c, e) ->
  e = None
  /\ _is_dangerous_command c = false
  /\ exists text, c = _clean_command_response text.
Proof.
  unfold convert_body, no_candidates, command_text_of. intros H.
  through H; try discriminate H.
  injection H as <- <-. split; [reflexivity |]. split; [assumption |].
  eexists; reflexivity.
Qed.

Lemma convert_command self query post c e :
  convert_natural_language_to_command message self query post
  = Ret (Some c, e) ->
  e = None
  /\ _is_dangerous_command c = false
  /\ exists text, c = _clean_command_response text.
Proof.
  unfold convert_natural_language_to_command. intros H.
  destruct (is_configured self); simpl in H; [| discriminate H].
  destruct (convert_body message self query post) as [r | x] eqn:E.
  - injection H as ->. eapply convert_body_command; eassumption.
  - destruct (exn_class x); discriminate H.
Qed.

Lemma convert_outcome self query post :
  match convert_natural_language_to_command message self query post with
  | Ret r => command_or_error r
  | Raise e => is_Exception (exn_class e) = false
  end.
Proof.
  unfold convert_natural_language_to_command.
  destruct (is_configured self); simpl; [| discriminate].
  destruct (convert_body message self query post) as [r | e] eqn:E.
  - eapply convert_body_shape; eassumption.
  - destruct (exn_class e) eqn:C; simpl; try discriminate. now rewrite C.
Qed.

(** X9. A command returned by [convert_natural_language_to_command]
    comes with no error, is not dangerous, and is one trimmed line. *)
Theorem convert_never_dangerous (self : GeminiService.t) (query : str)
        (post : str -> list (str * option str) -> str
                -> outcome Response)
        (c : str) (e : option str) :
  convert_natural_language_to_command message self query post
  = Ret (Some c, e) ->
  e = None
  /\ _is_dangerous_command c = false
  /\ has_newline c = false
  /\ strip c = c.
Proof.
  intros H. destruct (convert_command _ _ _ H) as (He & Hd & text & ->).
  repeat split; try assumption.
  - apply clean_single_line.
  - unfold _clean_command_response. apply strip_idem.
Qed.

Lemma execute_raises self cmd run e :
  CommandExecutor.execute_command self cmd run = Raise e ->
  is_Exception (exn_class e) = false.
Proof.
  unfold CommandExecutor.execute_command. intros H.
  destruct run as [result | x].
  - destruct (negb (CommandExecutor.returncode result =? 0));
      [destruct (truthy (CommandExecutor.stderr result)) |]; discriminate H.
  - destruct (exn_class x) eqn:C; try discriminate H.
    injection H as <-. now rewrite C.
Qed.

Lemma execute_success_handled self cmd run :
  handled run -> exists r, CommandExecutor.execute_command self cmd run = Ret r.
Proof.
  intros H. destruct run as [result | e]; simpl in *.
  - destruct (negb (CommandExecutor.returncode result =? 0));
      [destruct (truthy (CommandExecutor.stderr result)) |];
      eexists; reflexivity.
  - destruct (exn_class e); try discriminate; eexists; reflexivity.
Qed.

Lemma read_query_refuses get_json reply :
  App.read_query message get_json = Ret (inl reply) -> App.status reply = 400.
Proof.
  unfold App.read_query. intros H. through H; try discriminate H;
    injection H as <-; reflexivity.
Qed.

Lemma read_cmd_refuses get_json reply :
  App.read_cmd message get_json = Ret (inl reply) -> App.status reply = 400.
Proof.
  unfold App.read_cmd. intros H. through H; try discriminate H;
    injection H as <-; reflexivity.
Qed.

Lemma truthy_strip_method v q :
  strip_method message v = Ret q -> exists raw, v = JStr raw /\ q = strip raw.
Proof.
  destruct v; simpl; try discriminate. intros H. injection H as <-.
  eexists; split; reflexivity.
Qed.

Lemma getitem_ret v k x :
  getitem message v k = Ret x -> exists d, v = JDict d /\ lookup k d = Some x.
Proof.
  destruct v; simpl; try discriminate.
  destruct (lookup k d) eqn:E; [| discriminate].
  intros H. injection H as <-. eexists; split; [reflexivity | exact E].
Qed.

(** X10. The query that the route /natural-language passes on is the
    str under the key "query" of a JSON object, trimmed, and it is
    not empty. *)
Theorem read_query_accepts (get_json : outcome Py.json) (query : str) :
  App.read_query message get_json = Ret (inr query) ->
  query <> EmptyString
  /\ strip query = query
  /\ exists d raw, get_json = Ret (JDict d)
                   /\ lookup "query" d = Some (JStr raw)
                   /\ query = strip raw.
Proof.
  unfold App.read_query. intros H. through H; try discriminate H.
  injection H as <-.
  match goal with
  | Hg : getitem _ _ _ = Ret _ |- _ =>
      destruct (getitem_ret _ _ Hg) as (d & -> & Hl)
  end.
  match goal with
  | Hs : strip_method _ _ = Ret _ |- _ =>
      destruct (truthy_strip_method _ Hs) as (raw & -> & ->)
  end.
  split; [| split; [apply strip_idem |]].
  - apply truthy_true_iff. now apply negb_false_iff.
  - exists d, raw. repeat split; assumption.
Qed.

Lemma process_spawned self executor get_json post run :
  snd (App.process_natural_language message self executor get_json post run)
  = snd (App.process_body message self executor get_json post run).
Proof.
  unfold App.process_natural_language.
  destruct (App.process_body message self executor get_json post run)
    as [[reply | e] spawned]; simpl; [reflexivity |].
  destruct (is_Exception (exn_class e)); reflexivity.
Qed.

(** What the body of the route does, by cases: nothing is handed to the
    executor, or exactly the command the translator returned. *)
Lemma process_body_cases self executor get_json post run :
  (snd (App.process_body message self executor get_json post run) = []
   /\ match fst (App.process_body message self executor get_json post run) with
      | Ret reply => App.status reply = 400
      | Raise e =>
          is_Exception (exn_class e) = false
          \/ App.read_query message get_json = Raise e
      end)
  \/ exists query c,
      App.read_query message get_json = Ret (inr query)
      /\ convert_natural_language_to_command message self query post
         = Ret (Some c, None)
      /\ c <> EmptyString
      /\ App.process_body message self executor get_json post run
         = match CommandExecutor.execute_command executor c (run c) with
           | Ret result =>
               (Ret {| App.status := 200;
                       App.body := ("original_query", JStr query)
                                   :: ("converted_command", JStr c)
                                   :: executed result
                                   ++ [("mode", JStr "natural_language")] |},
                [c])
           | Raise e => (Raise e, [c])
           end.
Proof.
  unfold App.process_body.
  destruct (App.read_query message get_json) as [[reply | query] | e] eqn:Q.
  - left. simpl. split; [reflexivity |]. eapply read_query_refuses; eassumption.
  - pose proof (convert_outcome self query post) as Hc.
    destruct (convert_natural_language_to_command message self query post)
      as [[[c |] [err |]] | e] eqn:C; simpl in Hc; try contradiction.
    + destruct c as [| a c].
      * left. simpl. split; reflexivity.
      * right. exists query, (String a c).
        split; [reflexivity |]. split; [exact C |].
        split; [discriminate |].
        simpl. destruct (CommandExecutor.execute_command executor (String a c)
                           (run (String a c))); reflexivity.
    + left. destruct err; [contradiction |]. simpl. split; reflexivity.
    + left. simpl. split; [reflexivity | now left].
  - left. simpl. split; [reflexivity | now right].
Qed.

(** X11. The route /natural-language hands at most one command to the
    executor, and that command is not dangerous, not empty, and one
    trimmed line. *)
Theorem natural_language_spawns_safe
        (self : GeminiService.t) (executor : CommandExecutor.t)
        (get_json : outcome Py.json)
        (post : str -> list (str * option str) -> str
                -> outcome Response)
        (run : str -> outcome CommandExecutor.CompletedProcess)
        (c : str) :
  In c (snd (App.process_natural_language message self executor get_json post run)) ->
  snd (App.process_natural_language message self executor get_json post run) = [c]
  /\ _is_dangerous_command c = false
  /\ c <> EmptyString
  /\ has_newline c = false
  /\ strip c = c.
Proof.
  rewrite process_spawned. intros Hin.
  destruct (process_body_cases self executor get_json post run)
    as [[Hnil _] | (query & c' & Hq & Hc & Hne & Hb)].
  - rewrite Hnil in Hin. destruct Hin.
  - assert (Hs : snd (App.process_body message self executor get_json post run)
                 = [c']).
    { rewrite Hb.
      destruct (CommandExecutor.execute_command executor c' (run c'));
        reflexivity. }
    rewrite Hs in *. destruct Hin as [<- | []].
    destruct (convert_command _ _ _ Hc) as (_ & Hd & text & Ht).
    split; [reflexivity |]. split; [exact Hd |]. split; [exact Hne |].
    rewrite Ht. split; [apply clean_single_line |].
    unfold _clean_command_response. apply strip_idem.
Qed.

(** X12. The route /natural-language lets no [Exception] out, and it
    answers 200 exactly when it handed a command to the executor:
    a reply 400 or 500 means that nothing was run. *)
Theorem natural_language_replies
        (self : GeminiService.t) (executor : CommandExecutor.t)
        (get_json : outcome Py.json)
        (post : str -> list (str * option str) -> str
                -> outcome Response)
        (run : str -> outcome CommandExecutor.CompletedProcess) :
  match App.process_natural_language message self executor get_json post run with
  | (Ret reply, spawned) =>
      (App.status reply = 200 /\ exists c, spawned = [c])
      \/ ((App.status reply = 400 \/ App.status reply = 500) /\ spawned = [])
  | (Raise e, _) => is_Exception (exn_class e) = false
  end.
Proof.
  unfold App.process_natural_language.
  destruct (process_body_cases self executor get_json post run)
    as [[Hnil Hf] | (query & c & Hq & Hc & Hne & Hb)].
  - destruct (App.process_body message self executor get_json post run)
      as [[reply | e] spawned]; simpl in *; subst spawned.
    + right. split; [now left | reflexivity].
    + destruct (is_Exception (exn_class e)) eqn:E; [| exact E].
      right. split; [now right | reflexivity].
  - rewrite Hb.
    destruct (CommandExecutor.execute_command executor c (run c)) as [r | e] eqn:X.
    + left. split; [reflexivity | now exists c].
    + apply execute_raises in X. now rewrite X.
Qed.


(** X14. When the call of the language-model API raises an [Exception],
    the route /natural-language answers 400 with the message of the
    matching clause (time-out, network error, any other error) and runs
    nothing. *)
Theorem natural_language_upstream_failure
        (self : GeminiService.t) (executor : CommandExecutor.t)
        (get_json : outcome Py.json) (query : str)
        (post : str -> list (str * option str) -> str
                -> outcome Response)
        (run : str -> outcome CommandExecutor.CompletedProcess)
        (e : exn) :
  is_configured self = true ->
  App.read_query message get_json = Ret (inr query) ->
  post (url self) (headers self) (_build_prompt query) = Raise e ->
  is_Exception (exn_class e) = true ->
  App.process_natural_language message self executor get_json post run
  = (Ret (refusal (translation_error e) query), []).
Proof.
  intros Hc Hq Hp He. unfold App.process_natural_language, App.process_body.
  rewrite Hq. unfold convert_natural_language_to_command, convert_body.
  rewrite Hc, Hp. simpl. unfold translation_error.
  destruct (exn_class e); try discriminate He; reflexivity.
Qed.

(** X15. A reply of the language-model API with a status other than 200
    is answered with 400 and a message that carries the status and the
    text of the reply; its body is not looked at and nothing is run. *)
Theorem natural_language_bad_status
        (self : GeminiService.t) (executor : CommandExecutor.t)
        (get_json : outcome Py.json) (query : str)
        (post : str -> list (str * option str) -> str
                -> outcome Response)
        (run : str -> outcome CommandExecutor.CompletedProcess)
        (response : Response) :
  is_configured self = true ->
  App.read_query message get_json = Ret (inr query) ->
  post (url self) (headers self) (_build_prompt query) = Ret response ->
  status_code response <> 200 ->
  App.process_natural_language message self executor get_json post run
  = (Ret (refusal ("Gemini API error: " ++ str_of_int (status_code response)
                     ++ " - " ++ text response) query), []).
Proof.
  intros Hc Hq Hp Hs. apply Z.eqb_neq in Hs.
  unfold App.process_natural_language, App.process_body.
  rewrite Hq. unfold convert_natural_language_to_command, convert_body.
  rewrite Hc, Hp. simpl. rewrite Hs. reflexivity.
Qed.

(** X16. A reply with status 200 whose JSON object has no key
    "candidates", or an empty or otherwise false value under it, makes
    the translator return the error "No response from Gemini API". *)
Theorem convert_no_candidates
        (self : GeminiService.t) (query : str)
        (post : str -> list (str * option str) -> str
                -> outcome Response)
        (response : Response) (d : list (str * Py.json)) :
  is_configured self = true ->
  post (url self) (headers self) (_build_prompt query) = Ret response ->
  status_code response = 200 ->
  json response = Ret (JDict d) ->
  match lookup "candidates" d with
  | None => True
  | Some v => json_truthy v = false
  end ->
  convert_natural_language_to_command message self query post
  = Ret (None, Some "No response from Gemini API").
Proof.
  intros Hc Hp Hs Hj Hl.
  unfold convert_natural_language_to_command, convert_body, no_candidates.
  rewrite Hc, Hp. simpl. rewrite Hs. simpl. rewrite Hj. simpl.
  destruct (lookup "candidates" d) as [v |] eqn:L; simpl.
  - rewrite Hl. reflexivity.
  - reflexivity.
Qed.


(** X18. When the body of a reply with status 200 cannot be decoded,
    the exception of [response.json()] is turned into the error message
    of the matching clause; no command is returned. *)
Theorem convert_undecodable_body
        (self : GeminiService.t) (query : str)
        (post : str -> list (str * option str) -> str
                -> outcome Response)
        (response : Response) (e : exn) :
  is_configured self = true ->
  post (url self) (headers self) (_build_prompt query) = Ret response ->
  status_code response = 200 ->
  json response = Raise e ->
  is_Exception (exn_class e) = true ->
  convert_natural_language_to_command message self query post
  = Ret (None, Some (translation_error e)).
Proof.
  intros Hc Hp Hs Hj He.
  unfold convert_natural_language_to_command, convert_body.
  rewrite Hc, Hp. simpl. rewrite Hs. simpl. rewrite Hj. simpl.
  unfold translation_error. destruct (exn_class e); try discriminate He;
    reflexivity.
Qed.

Lemma command_text_of_raises result e :
  command_text_of message result = Raise e -> exn_class e = OtherException.
Proof.
  unfold command_text_of. intros H.
  repeat match type of H with
         | context [bind ?m _] =>
             let E := fresh "E" in
             destruct m as [? | ?] eqn:E; simpl in H;
             [| injection H as <-;
                match type of E with
                | getitem _ ?v _ = _ => destruct v; simpl in E;
                    try (injection E as <-; reflexivity);
                    match type of E with
                    | context [lookup ?k ?d] =>
                        destruct (lookup k d); try discriminate E;
                        injection E as <-; reflexivity
                    end
                | getitem0 _ ?v = _ =>
                    destruct v as [| | | | [|] | [|] |]; simpl in E;
                    try discriminate E; injection E as <-; reflexivity
                end]
         end.
  match type of H with
  | getitem _ ?v _ = _ => destruct v; simpl in H;
      try (injection H as <-; reflexivity);
      match type of H with
      | context [lookup ?k ?d] =>
          destruct (lookup k d); try discriminate H;
          injection H as <-; reflexivity
      end
  end.
Qed.

(** X19. A reply with candidates but without the text of a first
    candidate where the code looks for it (a missing key, an empty list,
    a value of another type) makes the translator return an error that
    starts with "Error converting natural language: "; no command is
    returned. *)
Theorem convert_malformed_reply
        (self : GeminiService.t) (query : str)
        (post : str -> list (str * option str) -> str
                -> outcome Response)
        (response : Response) (result : Py.json) :
  is_configured self = true ->
  post (url self) (headers self) (_build_prompt query) = Ret response ->
  status_code response = 200 ->
  json response = Ret result ->
  no_candidates message result = Ret false ->
  (forall text, command_text_of message result <> Ret (JStr text)) ->
  exists descr,
    convert_natural_language_to_command message self query post
    = Ret (None, Some ("Error converting natural language: " ++ descr)).
Proof.
  intros Hc Hp Hs Hj Hn Ht.
  unfold convert_natural_language_to_command, convert_body.
  rewrite Hc, Hp. simpl. rewrite Hs. simpl. rewrite Hj. simpl.
  rewrite Hn. simpl.
  destruct (command_text_of message result) as [v | e] eqn:E; simpl.
  - destruct v; simpl; try (eexists; reflexivity).
    exfalso. now apply (Ht s).
  - rewrite (command_text_of_raises _ E). eexists; reflexivity.
Qed.

Lemma read_cmd_object d :
  App.read_cmd message (Ret (JDict d))
  = match lookup "cmd" d with
    | None =>
        Ret (inl {| App.status := 400;
                    App.body := [("error", JStr "No command provided")] |})
    | Some v =>
        command <- strip_method message v ;;
        if negb (truthy command) then
          Ret (inl {| App.status := 400;
                      App.body := [("error", JStr "Empty command")] |})
        else Ret (inr command)
    end.
Proof.
  destruct d as [| kv d']; [reflexivity |].
  unfold App.read_cmd, contains, getitem.
  cbn [bind json_truthy negb].
  destruct (lookup "cmd" (kv :: d')); reflexivity.
Qed.

(** X20. The route /execute hands the str under the key "cmd",
    trimmed, to the executor whenever it is not blank, without asking the
    safety gate, and answers 200 with the result of the execution, also
    when the command failed. *)
Theorem execute_route_runs
        (executor : CommandExecutor.t)
        (d : list (str * Py.json)) (raw : str)
        (run : str -> outcome CommandExecutor.CompletedProcess) :
  lookup "cmd" d = Some (JStr raw) ->
  strip raw <> EmptyString ->
  handled (run (strip raw)) ->
  exists result,
    CommandExecutor.execute_command executor (strip raw) (run (strip raw))
    = Ret result
    /\ App.execute_command message executor (Ret (JDict d)) run
       = (Ret {| App.status := 200;
                 App.body := executed result ++ [("mode", JStr "manual")] |},
          [strip raw]).
Proof.
  intros Hl Hne Hr.
  destruct (execute_success_handled executor (strip raw) _ Hr) as [result Hx].
  exists result. split; [exact Hx |].
  unfold App.execute_command, App.execute_body.
  rewrite read_cmd_object, Hl. simpl.
  destruct (strip raw) as [| a c] eqn:K; [contradiction |].
  simpl. rewrite Hx. reflexivity.
Qed.

(** X21. The route /execute refuses with 400, and runs nothing, a body
    that is empty or false ("No command provided"), an object without
    the key "cmd" (the same), and a blank command ("Empty command"); a
    command that is not a str is answered with 500. *)
Theorem execute_route_refuses
        (executor : CommandExecutor.t)
        (run : str -> outcome CommandExecutor.CompletedProcess) :
  (forall data,
      json_truthy data = false ->
      App.execute_command message executor (Ret data) run
      = (Ret {| App.status := 400;
                App.body := [("error", JStr "No command provided")] |}, []))
  /\ (forall d,
         lookup "cmd" d = None ->
         App.execute_command message executor (Ret (JDict d)) run
         = (Ret {| App.status := 400;
                   App.body := [("error", JStr "No command provided")] |}, []))
  /\ (forall d raw,
         lookup "cmd" d = Some (JStr raw) ->
         strip raw = EmptyString ->
         App.execute_command message executor (Ret (JDict d)) run
         = (Ret {| App.status := 400;
                   App.body := [("error", JStr "Empty command")] |}, []))
  /\ (forall d v,
         lookup "cmd" d = Some v ->
         (forall raw, v <> JStr raw) ->
         App.execute_command message executor (Ret (JDict d)) run
         = (Ret {| App.status := 500;
                   App.body :=
                     [("error",
                       JStr ("Server error: "
                               ++ message (NoAttribute v "strip")))] |}, [])).
Proof.
  unfold App.execute_command, App.execute_body.
  split; [| split; [| split]].
  - intros data H. unfold App.read_cmd. simpl. rewrite H. reflexivity.
  - intros d H. rewrite read_cmd_object, H. reflexivity.
  - intros d raw H Hs. rewrite read_cmd_object, H. simpl. rewrite Hs. reflexivity.
  - intros d v H Hv. rewrite read_cmd_object, H.
    destruct v; try reflexivity. exfalso. now apply (Hv s).
Qed.

(** X22. The route /execute lets no [Exception] out, and it answers 200
    exactly when it handed a command to the executor: a reply 400 or 500
    means that nothing was run. *)
Theorem execute_route_replies
        (executor : CommandExecutor.t) (get_json : outcome Py.json)
        (run : str -> outcome CommandExecutor.CompletedProcess) :
  match App.execute_command message executor get_json run with
  | (Ret reply, spawned) =>
      (App.status reply = 200 /\ exists c, spawned = [c])
      \/ ((App.status reply = 400 \/ App.status reply = 500) /\ spawned = [])
  | (Raise e, _) => is_Exception (exn_class e) = false
  end.
Proof.
  unfold App.execute_command, App.execute_body.
  destruct (App.read_cmd message get_json) as [[reply | c] | e] eqn:Q.
  - right. split; [left; eapply read_cmd_refuses; eassumption | reflexivity].
  - destruct (CommandExecutor.execute_command executor c (run c)) as [r | e] eqn:X.
    + left. split; [reflexivity | now exists c].
    + apply execute_raises in X. now rewrite X.
  - destruct (is_Exception (exn_class e)) eqn:E; [| exact E].
    right. split; [now right | reflexivity].
Qed.

(** X23. /health answers 200, and what it reports about the translator
    is how the service was built: "gemini_configured" is true exactly
    when an API key was found in the environment, and it is false exactly
    when every translation is refused as not configured. *)
Theorem health_reports_configuration
        (key : option str) (python_version working_directory : str) :
  App.status (App.health_check (init key) python_version working_directory) = 200
  /\ field "gemini_configured"
       (App.health_check (init key) python_version working_directory)
     = Some (JBool (match key with Some _ => true | None => false end))
  /\ (field "gemini_configured"
        (App.health_check (init key) python_version working_directory)
      = Some (JBool false)
      <-> forall query post,
          convert_natural_language_to_command message (init key) query post
          = Ret (None, Some not_configured_message)).
Proof.
  split; [reflexivity |]. split; [reflexivity |].
  unfold field. simpl. split.
  - intros H query post. destruct key; [discriminate H | reflexivity].
  - intros H. destruct key as [k |]; [| reflexivity].
    specialize (H EmptyString
                  (fun _ _ _ => Raise {| exn_class := RequestsTimeout;
                                         exn_str := EmptyString |})).
    discriminate H.
Qed.
End RoutesMore.


Section RoutesExamples.
Import Py Re ReSpec GeminiService TranslateSpec GateSpec ExecSpec.

Lemma convert_never_dangerous_witness :
  @None str = None
  /\ _is_dangerous_command "ls -la" = false
  /\ has_newline "ls -la" = false
  /\ strip "ls -la" = "ls -la".
Proof.
  apply (@convert_never_dangerous plain_message (init (Some "key")) "list files"
           (api_replies (Ret (reply_with_text " ls -la ")))).
  reflexivity.
Defined.

Lemma read_query_accepts_witness :
  "list files" <> EmptyString
  /\ strip "list files" = "list files"
  /\ exists d raw, query_body " list files " = Ret (JDict d)
                   /\ lookup "query" d = Some (JStr raw)
                   /\ "list files" = strip raw.
Proof.
  apply (@read_query_accepts plain_message (query_body " list files ")).
  reflexivity.
Defined.

Lemma natural_language_spawns_safe_witness :
  snd (App.process_natural_language plain_message (init (Some "key"))
         CommandExecutor.init (query_body "list files")
         (api_replies (Ret (reply_with_text "ls -la"))) quiet_run)
  = ["ls -la"]
  /\ _is_dangerous_command "ls -la" = false
  /\ "ls -la" <> EmptyString
  /\ has_newline "ls -la" = false
  /\ strip "ls -la" = "ls -la".
Proof.
  apply natural_language_spawns_safe. simpl. now left.
Defined.


Lemma natural_language_upstream_failure_witness :
  App.process_natural_language plain_message (init (Some "key"))
    CommandExecutor.init (query_body "list files")
    (api_replies (Raise {| exn_class := RequestsTimeout;
                           exn_str := "read timed out" |})) quiet_run
  = (Ret (refusal "Gemini API request timed out" "list files"), []).
Proof.
  apply (@natural_language_upstream_failure plain_message (init (Some "key"))
           CommandExecutor.init (query_body "list files") "list files"
           (api_replies (Raise {| exn_class := RequestsTimeout;
                                  exn_str := "read timed out" |}))
           quiet_run
           {| exn_class := RequestsTimeout; exn_str := "read timed out" |});
    reflexivity.
Defined.

Lemma natural_language_bad_status_witness :
  App.process_natural_language plain_message (init (Some "key"))
    CommandExecutor.init (query_body "list files")
    (api_replies (Ret {| status_code := 503; text := "overloaded";
                         json := Ret JNull |})) quiet_run
  = (Ret (refusal "Gemini API error: 503 - overloaded" "list files"), []).
Proof.
  apply (@natural_language_bad_status plain_message (init (Some "key"))
           CommandExecutor.init (query_body "list files") "list files"
           (api_replies (Ret {| status_code := 503; text := "overloaded";
                                json := Ret JNull |}))
           quiet_run
           {| status_code := 503; text := "overloaded"; json := Ret JNull |});
    [reflexivity | reflexivity | reflexivity | simpl; lia].
Defined.

Lemma convert_no_candidates_witness :
  convert_natural_language_to_command plain_message (init (Some "key"))
    "list files"
    (api_replies (Ret {| status_code := 200; text := EmptyString;
                         json := Ret (JDict [("candidates", JList [])]) |}))
  = Ret (None, Some "No response from Gemini API").
Proof.
  apply (@convert_no_candidates plain_message (init (Some "key")) "list files"
           (api_replies (Ret {| status_code := 200; text := EmptyString;
                                json := Ret (JDict [("candidates", JList [])]) |}))
           {| status_code := 200; text := EmptyString;
              json := Ret (JDict [("candidates", JList [])]) |}
           [("candidates", JList [])]);
    reflexivity.
Defined.


Lemma convert_undecodable_body_witness :
  convert_natural_language_to_command plain_message (init (Some "key"))
    "list files"
    (api_replies (Ret {| status_code := 200; text := "<html>";
                         json := Raise {| exn_class := RequestException;
                                          exn_str := "Expecting value" |} |}))
  = Ret (None, Some "Network error: Expecting value").
Proof.
  apply (@convert_undecodable_body plain_message (init (Some "key")) "list files"
           (api_replies (Ret {| status_code := 200; text := "<html>";
                                json := Raise {| exn_class := RequestException;
                                                 exn_str := "Expecting value" |} |}))
           {| status_code := 200; text := "<html>";
              json := Raise {| exn_class := RequestException;
                               exn_str := "Expecting value" |} |}
           {| exn_class := RequestException; exn_str := "Expecting value" |});
    reflexivity.
Defined.

Lemma convert_malformed_reply_witness :
  exists descr,
    convert_natural_language_to_command plain_message (init (Some "key"))
      "list files"
      (api_replies (Ret {| status_code := 200; text := EmptyString;
                           json := Ret (JDict [("candidates",
                                                JList [JDict []])]) |}))
    = Ret (None, Some ("Error converting natural language: " ++ descr)).
Proof.
  apply (@convert_malformed_reply plain_message (init (Some "key")) "list files"
           (api_replies (Ret {| status_code := 200; text := EmptyString;
                                json := Ret (JDict [("candidates",
                                                     JList [JDict []])]) |}))
           {| status_code := 200; text := EmptyString;
              json := Ret (JDict [("candidates", JList [JDict []])]) |}
           (JDict [("candidates", JList [JDict []])]));
    try reflexivity.
  intros text. simpl. discriminate.
Defined.

Lemma execute_route_runs_witness :
  exists result,
    CommandExecutor.execute_command CommandExecutor.init (strip " rm -rf / ")
      (quiet_run (strip " rm -rf / ")) = Ret result
    /\ App.execute_command plain_message CommandExecutor.init
         (Ret (JDict [("cmd", JStr " rm -rf / ")])) quiet_run
       = (Ret {| App.status := 200;
                 App.body := executed result ++ [("mode", JStr "manual")] |},
          [strip " rm -rf / "]).
Proof.
  apply execute_route_runs; [reflexivity | vm_compute; discriminate | exact I].
Defined.

Lemma execute_route_refuses_witness :
  App.execute_command plain_message CommandExecutor.init
    (Ret (JDict [("cmd", JStr "   ")])) quiet_run
  = (Ret {| App.status := 400;
            App.body := [("error", JStr "Empty command")] |}, []).
Proof.
  apply (proj1 (proj2 (proj2 (@execute_route_refuses plain_message
                                CommandExecutor.init quiet_run)))
           [("cmd", JStr "   ")] "   ");
    reflexivity.
Defined.
End RoutesExamples.
